(** * mcp_browser_use.server: a shallow embedding and its verified properties

    The Python module [server.py] is a thin layer of tool handlers over an
    external browser-automation library.  The embedding follows the module
    top to bottom:

    - [Py]     : the fragment of Python the handlers rely on (string
                 methods, truthiness, exceptions);
    - [Host]   : [detect_default_browser], a function of the host
                 operating system's answers;
    - [Server] : the module globals [browser] / [browser_context] and the
                 tool handlers, written in a state-and-exception monad whose
                 state records every call made into the external library.

    Calls to [logger] do not influence control flow or results and are left
    out.  Exceptions are the ones derived from Python's [Exception]; the
    process-level signals that [except Exception] lets through
    (KeyboardInterrupt, SystemExit) are outside the model. *)

From Stdlib Require Import ZArith Ascii String List Lia.
From stdpp Require Import base option list gmap strings pretty.

Local Open Scope string_scope.

(* ===================================================================== *)
(** * Python fragment *)
(* ===================================================================== *)

Module Py.

(** ** Characters and the string methods used by the module.

    A [str] is modelled by its sequence of bytes.  [lower] and [title]
    act on the ASCII letters; every pattern the module looks for after
    [lower()] is plain ASCII without the letter k, so code points outside
    ASCII cannot create or destroy a match. *)

Definition is_upper (c : ascii) : bool :=
  (65 <=? nat_of_ascii c)%nat && (nat_of_ascii c <=? 90)%nat.

Definition is_lower (c : ascii) : bool :=
  (97 <=? nat_of_ascii c)%nat && (nat_of_ascii c <=? 122)%nat.

Definition to_lower (c : ascii) : ascii :=
  if is_upper c then ascii_of_nat (nat_of_ascii c + 32) else c.

Definition to_upper (c : ascii) : ascii :=
  if is_lower c then ascii_of_nat (nat_of_ascii c - 32) else c.

(** [s.lower()] *)
Fixpoint lower (s : string) : string :=
  match s with
  | EmptyString => EmptyString
  | String c s' => String (to_lower c) (lower s')
  end.

(** [s.title()]: the first letter of every run of letters is upper-cased,
    the others lower-cased. *)
Fixpoint title_from (inside_word : bool) (s : string) : string :=
  match s with
  | EmptyString => EmptyString
  | String c s' =>
      let cased := is_upper c || is_lower c in
      String (if inside_word then to_lower c else to_upper c)
             (title_from cased s')
  end.

Definition title (s : string) : string := title_from false s.

(** Python's whitespace within ASCII: tab, LF, VT, FF, CR, FS, GS, RS, US
    and the space. *)
Definition is_whitespace (c : ascii) : bool :=
  let n := nat_of_ascii c in
  ((9 <=? n)%nat && (n <=? 13)%nat) || ((28 <=? n)%nat && (n <=? 32)%nat).

Fixpoint lstrip (s : string) : string :=
  match s with
  | EmptyString => EmptyString
  | String c s' => if is_whitespace c then lstrip s' else s
  end.

(** [s.rstrip()]: the result is empty exactly when nothing but whitespace
    remains. *)
Fixpoint rstrip (s : string) : string :=
  match s with
  | EmptyString => EmptyString
  | String c s' =>
      match rstrip s' with
      | EmptyString => if is_whitespace c then EmptyString
                       else String c EmptyString
      | r => String c r
      end
  end.

(** [s.strip()] *)
Definition strip (s : string) : string := rstrip (lstrip s).

(** [sub in s] for two strings. *)
Fixpoint str_in (sub s : string) : bool :=
  if String.prefix sub s then true
  else match s with
       | EmptyString => false
       | String _ s' => str_in sub s'
       end.

(** [sep.join(parts)] *)
Fixpoint join (sep : string) (parts : list string) : string :=
  match parts with
  | [] => ""
  | [p] => p
  | p :: rest => p +:+ sep +:+ join sep rest
  end.

(** Truthiness of a [str] and of an [Optional[str]]. *)
Definition truthy_str (s : string) : bool :=
  match s with EmptyString => false | _ => true end.

Definition truthy_opt_str (o : option string) : bool :=
  match o with Some s => truthy_str s | None => false end.

(** [f"{n}"] for an [int]. *)
Definition str_of_int (n : Z) : string := pretty n.

(** A line feed and a double quote, as one-character strings. *)
Definition nl : string := String (ascii_of_nat 10) EmptyString.
Definition dquote : string := String (ascii_of_nat 34) EmptyString.

(** ** Exceptions *)

Inductive exn_class : Set :=
| Exception        (* raised by the module itself: [raise Exception(...)] *)
| KeyError
| AttributeError
| ImportError
| OtherError.      (* any other subclass of Exception: OSError, TimeoutError, ... *)

(** An exception value: its class and [str(e)]. *)
Record exn : Set := mk_exn { exn_cls : exn_class; exn_str : string }.

(** The result of evaluating an expression or running a call. *)
Inductive outcome (A : Type) : Type :=
| Returned (a : A)
| Raised (e : exn).
Arguments Returned {A} a.
Arguments Raised {A} e.

Definition is_raised {A} (o : outcome A) : bool :=
  match o with Raised _ => true | Returned _ => false end.

(** Sequencing of fallible expressions, and [try: ... except Exception]. *)
Definition obind {A B} (o : outcome A) (k : A -> outcome B) : outcome B :=
  match o with
  | Returned a => k a
  | Raised e => Raised e
  end.

Definition otry {A} (body : outcome A) (handler : exn -> outcome A) : outcome A :=
  match body with
  | Returned a => Returned a
  | Raised e => handler e
  end.

(** [str(k)] of [KeyError(k)] for an integer key is the key's repr. *)
Definition key_error (k : Z) : exn := mk_exn KeyError (str_of_int k).

(** [None.attr] *)
Definition none_has_no_attribute (attr : string) : exn :=
  mk_exn AttributeError
         ("'NoneType' object has no attribute '" +:+ attr +:+ "'").

End Py.

(* ===================================================================== *)
(** * Browser discovery: [detect_default_browser] *)
(* ===================================================================== *)

Module Host.
Import Py.

(** [subprocess.run(..., capture_output=True, text=True)] *)
Record completed : Set := Completed { returncode : Z; stdout : string }.

(** The data stored under [ProgId]: a string, or a value of another
    registry type, on which [.lower()] raises AttributeError. *)
Inductive registry_value : Set :=
| RegStr (s : string)
| RegOther.

(** What the host answers.  [winreg_progid] stands for the block
    [import winreg] / [OpenKey] / [QueryValueEx]: any of the three may
    raise (ImportError where the module does not exist). *)
Record host : Type := {
  platform_system : string;                 (* platform.system() *)
  defaults_read   : outcome completed;      (* macOS: defaults read ... LSHandlers *)
  winreg_progid   : outcome registry_value; (* Windows: UserChoice ProgId *)
  xdg_settings    : outcome completed;      (* Linux: xdg-settings get default-web-browser *)
  path_exists     : string -> bool;         (* os.path.exists *)
  expanduser      : string -> string        (* os.path.expanduser *)
}.

(** A pair [(browser_type, browser_path)]. *)
Definition browser_info : Type := string * option string.

Definition mac_brave := "/Applications/Brave Browser.app/Contents/MacOS/Brave Browser".
Definition mac_chrome := "/Applications/Google Chrome.app/Contents/MacOS/Google Chrome".
Definition mac_edge := "/Applications/Microsoft Edge.app/Contents/MacOS/Microsoft Edge".
Definition win_brave_user := "~/AppData/Local/BraveSoftware/Brave-Browser/Application/brave.exe".
Definition win_brave := "C:\Program Files\BraveSoftware\Brave-Browser\Application\brave.exe".
Definition win_brave_x86 := "C:\Program Files (x86)\BraveSoftware\Brave-Browser\Application\brave.exe".
Definition win_chrome := "C:\Program Files\Google\Chrome\Application\chrome.exe".
Definition win_chrome_x86 := "C:\Program Files (x86)\Google\Chrome\Application\chrome.exe".
Definition win_edge := "C:\Program Files (x86)\Microsoft\Edge\Application\msedge.exe".
Definition linux_brave := "/usr/bin/brave-browser".
Definition linux_chrome := "/usr/bin/google-chrome".
Definition linux_chromium := "/usr/bin/chromium-browser".

Definition brave_paths (h : host) : list string :=
  [expanduser h win_brave_user; win_brave; win_brave_x86].

(** [for path in paths: if os.path.exists(path): ...] : the first
    candidate that exists. *)
Definition first_existing (h : host) (paths : list string) : option string :=
  List.find (path_exists h) paths.

Definition registry_lower (v : registry_value) : outcome string :=
  match v with
  | RegStr s => Returned (lower s)
  | RegOther => Raised (mk_exn AttributeError "object has no attribute 'lower'")
  end.

(** The three probes.  [Some info] is a [return] taken inside the probe;
    [None] means control falls through to the end of the function. *)

Definition probe_darwin (h : host) : outcome (option browser_info) :=
  obind (defaults_read h) (fun result =>
  if (returncode result =? 0)%Z then
    let output := stdout result in
    if str_in "com.brave.browser" (lower output) then
      Returned (Some ("brave", Some mac_brave))
    else if str_in "com.google.chrome" (lower output) then
      Returned (Some ("chrome", Some mac_chrome))
    else if str_in "com.microsoft.edgemac" (lower output) then
      Returned (Some ("chrome", Some mac_edge))
    else Returned None
  else Returned None).

Definition probe_windows_body (h : host) : outcome (option browser_info) :=
  obind (winreg_progid h) (fun prog_id =>
  obind (registry_lower prog_id) (fun lowered =>
  if str_in "brave" lowered then
    match first_existing h (brave_paths h) with
    | Some path => Returned (Some ("brave", Some path))
    | None => Returned (Some ("brave", Some (expanduser h win_brave_user)))
    end
  else if str_in "chrome" lowered then
    if path_exists h win_chrome then
      Returned (Some ("chrome", Some win_chrome))
    else
      Returned (Some ("chrome",
                      Some (if path_exists h win_chrome_x86
                            then win_chrome_x86 else win_chrome)))
  else if str_in "edge" lowered then
    Returned (Some ("chrome", Some win_edge))
  else Returned None)).

(** [except ImportError] and [except Exception] both only log. *)
Definition probe_windows (h : host) : outcome (option browser_info) :=
  otry (probe_windows_body h)
       (fun e => match exn_cls e with
                 | ImportError => Returned None
                 | _ => Returned None
                 end).

Definition probe_linux_body (h : host) : outcome (option browser_info) :=
  obind (xdg_settings h) (fun result =>
  if (returncode result =? 0)%Z then
    let default_browser := lower (strip (stdout result)) in
    if str_in "brave" default_browser then
      Returned (Some ("brave", Some linux_brave))
    else if str_in "chrome" default_browser
            || str_in "google-chrome" default_browser then
      Returned (Some ("chrome", Some linux_chrome))
    else if str_in "chromium" default_browser then
      Returned (Some ("chrome", Some linux_chromium))
    else Returned None
  else Returned None).

Definition probe_linux (h : host) : outcome (option browser_info) :=
  otry (probe_linux_body h) (fun _ => Returned None).

Definition system_of (h : host) : string := lower (platform_system h).

Definition detect_default_browser (h : host) : outcome browser_info :=
  let system := system_of h in
  obind
    (otry
       (if system =? "darwin" then probe_darwin h
        else if system =? "windows" then probe_windows h
        else if system =? "linux" then probe_linux h
        else Returned None)
       (fun _ => Returned None))
    (fun early =>
       match early with
       | Some info => Returned info
       | None => Returned ("chrome", None)    (* Fallback to Chrome *)
       end).

(** ** The vocabulary of the specification *)

Definition primary_kind : string := "chrome".
Definition alternative_kind : string := "brave".

Definition recognized_kind (k : string) : Prop :=
  k = primary_kind \/ k = alternative_kind.

Definition fallback : browser_info := (primary_kind, None).

Definition recognized_os (h : host) : bool :=
  (system_of h =? "darwin") || (system_of h =? "windows")
  || (system_of h =? "linux").

(** The probe that belongs to the host's operating system raised. *)
Definition probe_failed (h : host) : bool :=
  if system_of h =? "darwin" then is_raised (defaults_read h)
  else if system_of h =? "windows" then
    match winreg_progid h with
    | Raised _ | Returned RegOther => true
    | Returned (RegStr _) => false
    end
  else if system_of h =? "linux" then is_raised (xdg_settings h)
  else false.

Definition names_none (patterns : list string) (s : string) : bool :=
  forallb (fun p => negb (str_in p s)) patterns.

Definition completed_inconclusive (patterns : list string)
           (text : completed -> string) (o : outcome completed) : bool :=
  match o with
  | Returned r => negb (returncode r =? 0)%Z || names_none patterns (text r)
  | Raised _ => false
  end.

(** The probe ran but its answer names none of the browsers looked for
    (or the command reported a non-zero status). *)
Definition probe_inconclusive (h : host) : bool :=
  if system_of h =? "darwin" then
    completed_inconclusive
      ["com.brave.browser"; "com.google.chrome"; "com.microsoft.edgemac"]
      (fun r => lower (stdout r)) (defaults_read h)
  else if system_of h =? "windows" then
    match winreg_progid h with
    | Returned (RegStr s) => names_none ["brave"; "chrome"; "edge"] (lower s)
    | _ => false
    end
  else if system_of h =? "linux" then
    completed_inconclusive
      ["brave"; "chrome"; "google-chrome"; "chromium"]
      (fun r => lower (strip (stdout r))) (xdg_settings h)
  else false.

End Host.

(* ===================================================================== *)
(** * The server module: globals and tool handlers *)
(* ===================================================================== *)

Module Server.
Import Py Host.

(** ** Objects of the external automation library *)

(** A [Browser] or [BrowserContext] object, by identity. *)
Definition handle : Set := nat.

(** A [DOMElementNode], with the two answers the handlers ask of it. *)
Record dom_element : Set := {
  tag_name : string;
  xpath : string;
  all_text_till_next_clickable_element : string;  (* max_depth=2 *)
  file_uploader : bool                            (* is_file_uploader *)
}.

(** One entry of [select.options] as the page script reports it. *)
Record select_option : Set := {
  opt_text : string;
  opt_value : string;
  opt_index : Z
}.

(** A frame of the page: what each script evaluation and the label
    selection yield there.  [None] is the script's [null]. *)
Record frame : Set := {
  eval_options : outcome (option (list select_option));
  eval_find_dropdown : outcome (option bool);     (* the dict's "found" *)
  select_by_label : string -> outcome (list string)
}.

(** One call of [_click_element_node]: how many pages it added to
    [session.context.pages], what it returned or raised, and what a
    following [switch_to_tab(-1)] does. *)
Record click_attempt : Set := {
  opened_pages : nat;
  click_result : outcome (option string);         (* download path *)
  switch_result : option exn
}.

(** Every call into the library, as it is observed from outside. *)
Inductive event : Set :=
| BrowserNew (b : handle) (headless : bool) (chrome_instance_path : string)
| ContextNew (c b : handle)
| ContextClose (c : handle)
| BrowserClose (b : handle)
| GetCurrentPage
| PageGoto (url : string)
| WaitForLoadState
| GetSelectorMap
| GetDomElementByIndex (index : Z)
| GetSession
| IsFileUploader (el : dom_element)
| ClickElementNode (el : dom_element)
| SwitchToTab (page_id : Z)
| Sleep (seconds : Z)
| InputTextElementNode (el : dom_element) (text : string)
| FrameEvaluateOptions (frame_no : nat) (xpath : string)
| FrameEvaluateFind (frame_no : nat) (xpath : string)
| FrameSelectOption (frame_no : nat) (locator : string) (label : string).

(** The surroundings of a run: the host and the behaviour of the
    library's objects.  [None] in an [option exn] is success. *)
Record env : Type := {
  the_host : host;
  system_prompt : string -> string;  (* SystemPrompt(action_description=..).get_system_message().text() *)
  context_close : handle -> option exn;
  browser_close : handle -> option exn;
  selector_map : gmap Z dom_element;
  page_goto : string -> option exn;
  wait_for_load_state : option exn;
  click_attempts : nat -> click_attempt;
  input_text_element_node : dom_element -> string -> option exn;
  frames : list frame;
  json_dumps : string -> string;          (* json.dumps of a str *)
  str_of_values : list string -> string   (* str() of a list of str *)
}.

(** ** Process state *)

Record state : Set := {
  browser : option handle;            (* global browser *)
  browser_context : option handle;    (* global browser_context *)
  live_connections : list handle;     (* Browser objects constructed and not closed *)
  live_contexts : list handle;        (* BrowserContext objects constructed and not closed *)
  next_handle : handle;
  pages : nat;                        (* len(session.context.pages) *)
  clicks : nat;                       (* calls of _click_element_node so far *)
  trace : list event                  (* oldest first *)
}.

Definition initial_state : state :=
  {| browser := None; browser_context := None;
     live_connections := []; live_contexts := [];
     next_handle := 0; pages := 1; clicks := 0; trace := [] |}.

Definition set_browser (b : option handle) (s : state) : state :=
  {| browser := b; browser_context := browser_context s;
     live_connections := live_connections s; live_contexts := live_contexts s;
     next_handle := next_handle s; pages := pages s; clicks := clicks s;
     trace := trace s |}.

Definition set_browser_context (c : option handle) (s : state) : state :=
  {| browser := browser s; browser_context := c;
     live_connections := live_connections s; live_contexts := live_contexts s;
     next_handle := next_handle s; pages := pages s; clicks := clicks s;
     trace := trace s |}.

Definition set_live (conns ctxs : list handle) (s : state) : state :=
  {| browser := browser s; browser_context := browser_context s;
     live_connections := conns; live_contexts := ctxs;
     next_handle := next_handle s; pages := pages s; clicks := clicks s;
     trace := trace s |}.

Definition set_next_handle (n : handle) (s : state) : state :=
  {| browser := browser s; browser_context := browser_context s;
     live_connections := live_connections s; live_contexts := live_contexts s;
     next_handle := n; pages := pages s; clicks := clicks s;
     trace := trace s |}.

Definition set_clicked (p k : nat) (s : state) : state :=
  {| browser := browser s; browser_context := browser_context s;
     live_connections := live_connections s; live_contexts := live_contexts s;
     next_handle := next_handle s; pages := p; clicks := k;
     trace := trace s |}.

Definition record_event (ev : event) (s : state) : state :=
  {| browser := browser s; browser_context := browser_context s;
     live_connections := live_connections s; live_contexts := live_contexts s;
     next_handle := next_handle s; pages := pages s; clicks := clicks s;
     trace := trace s ++ [ev] |}.

(** ** The monad of handlers: state threaded through, exceptions raised *)

Definition M (A : Type) : Type := state -> outcome A * state.

Definition ret {A} (a : A) : M A := fun s => (Returned a, s).

Definition raise {A} (e : exn) : M A := fun s => (Raised e, s).

Definition bind {A B} (m : M A) (k : A -> M B) : M B :=
  fun s => match m s with
           | (Returned a, s') => k a s'
           | (Raised e, s') => (Raised e, s')
           end.

(** [try: body except Exception as e: handler] *)
Definition try_except {A} (body : M A) (handler : exn -> M A) : M A :=
  fun s => match body s with
           | (Returned a, s') => (Returned a, s')
           | (Raised e, s') => handler e s'
           end.

Definition get : M state := fun s => (Returned s, s).

Definition modify (f : state -> state) : M unit := fun s => (Returned tt, f s).

Definition emit (ev : event) : M unit := modify (record_event ev).

Definition lift {A} (o : outcome A) : M A := fun s => (o, s).

(** A library call that returns nothing: it raises or it does not. *)
Definition check (r : option exn) : M unit :=
  match r with
  | Some e => raise e
  | None => ret tt
  end.

Declare Scope py_scope.
Delimit Scope py_scope with py.
Notation "x <- m ;; k" := (bind m (fun x => k))
  (at level 100, m at next level, right associativity) : py_scope.
Notation "m ;; k" := (bind m (fun _ => k))
  (at level 100, right associativity) : py_scope.
Local Open Scope py_scope.

(** The events a run added to the trace. *)
Definition events_since (before after : state) : list event :=
  drop (length (trace before)) (trace after).

Section Handlers.
Context (E : env).

(** *** Session lifecycle *)

(** [await browser_context.close()].  A release that raises leaves the
    object counted as live. *)
Definition release_context (c : handle) : M unit :=
  emit (ContextClose c);;
  check (context_close E c);;
  modify (fun s => set_live (live_connections s)
                            (filter (fun h => h <> c) (live_contexts s)) s).

(** [await browser.close()] *)
Definition release_browser (b : handle) : M unit :=
  emit (BrowserClose b);;
  check (browser_close E b);;
  modify (fun s => set_live (filter (fun h => h <> b) (live_connections s))
                            (live_contexts s) s).

Definition close_browser : M string :=
  s <- get;;
  match browser_context s with
  | Some c =>
      release_context c;;
      modify (set_browser_context None)
  | None => ret tt
  end;;
  s <- get;;
  match browser s with
  | Some b =>
      release_browser b;;
      modify (set_browser None)
  | None => ret tt
  end;;
  ret "Browser closed successfully".

(** [Browser(config=config)]: a new connection object. *)
Definition new_browser (headless : bool) (chrome_path : string) : M handle :=
  s <- get;;
  let b := next_handle s in
  modify (set_next_handle (S b));;
  modify (fun s => set_live (live_connections s ++ [b])%list (live_contexts s) s);;
  emit (BrowserNew b headless chrome_path);;
  ret b.

(** [BrowserContext(browser=browser)]: a new context bound to [b]. *)
Definition new_context (b : handle) : M handle :=
  s <- get;;
  let c := next_handle s in
  modify (set_next_handle (S c));;
  modify (fun s => set_live (live_connections s) (live_contexts s ++ [c])%list s);;
  emit (ContextNew c b);;
  ret c.

Definition unsupported_os (system : string) : exn :=
  mk_exn Exception ("Unsupported operating system: " +:+ system).

(** The static path table consulted when no path was detected. *)
Definition platform_default_path (browser_type : string) : outcome string :=
  let h := the_host E in
  let system := lower (platform_system h) in
  if lower browser_type =? "brave" then
    if system =? "darwin" then Returned mac_brave
    else if system =? "windows" then
      let chrome_path := first_existing h (brave_paths h) in
      if truthy_opt_str chrome_path then Returned (default "" chrome_path)
      else Returned (expanduser h win_brave_user)
    else if system =? "linux" then Returned linux_brave
    else Raised (unsupported_os system)
  else
    if system =? "darwin" then Returned mac_chrome
    else if system =? "windows" then Returned win_chrome
    else if system =? "linux" then Returned linux_chrome
    else Raised (unsupported_os system).

Definition action_description : string :=
  "Available actions: initialize_browser, close_browser, search_google, go_to_url, go_back, wait, click_element, input_text, "
  +:+ "switch_tab, open_tab, inspect_page, scroll_down, scroll_up, send_keys, scroll_to_text, "
  +:+ "get_dropdown_options, select_dropdown_option, validate_page, done".

Definition indent : string := "        ".

Definition browser_system_prompt (browser_type task : string) : string :=
  let browser_mode :=
    "Connected to user's " +:+ title browser_type
    +:+ " browser with existing sessions" in
  nl +:+ indent +:+ system_prompt E action_description
  +:+ nl +:+ indent +:+ "Your ultimate task is: " +:+ task +:+ "."
  +:+ nl +:+ indent +:+ "If you achieved your ultimate task, stop everything and use the done tool to complete the task."
  +:+ nl +:+ indent +:+ "If not, continue as usual."
  +:+ nl +:+ indent
  +:+ nl +:+ indent +:+ "Browser mode: " +:+ browser_mode
  +:+ nl +:+ indent +:+ "Note: Connected to your default browser with all existing login sessions and data."
  +:+ nl +:+ "    ".

(** Everything [initialize_browser] does after the optional teardown. *)
Definition open_session (headless : bool) (task : string) : M string :=
  let chrome_path := "" in
  detected <- lift (detect_default_browser (the_host E));;
  let browser_type := fst detected in
  let detected_path := snd detected in
  let chrome_path :=
    if negb (truthy_str chrome_path) && truthy_opt_str detected_path
    then default "" detected_path else chrome_path in
  chrome_path <-
    (if negb (truthy_str chrome_path)
     then lift (platform_default_path browser_type)
     else ret chrome_path);;
  b <- new_browser headless chrome_path;;
  modify (set_browser (Some b));;
  c <- new_context b;;
  modify (set_browser_context (Some c));;
  ret (browser_system_prompt browser_type task).

Definition initialize_browser (headless : bool) (task : string) : M string :=
  s <- get;;
  match browser s with
  | Some _ => close_browser;; ret tt
  | None => ret tt
  end;;
  open_session headless task.

(** *** Tools acting on the current context *)

(** [await browser_context.method(...)]: AttributeError when the global
    is [None], the call otherwise. *)
Definition context_call (method : string) (ev : event) : M unit :=
  s <- get;;
  match browser_context s with
  | Some _ => emit ev
  | None => raise (none_has_no_attribute method)
  end.

Definition search_url (query : string) : string :=
  "https://www.google.com/search?q=" +:+ query +:+ "&udm=14".

Definition search_google (query : string) : M string :=
  context_call "get_current_page" GetCurrentPage;;
  emit (PageGoto (search_url query));;
  check (page_goto E (search_url query));;
  emit WaitForLoadState;;
  check (wait_for_load_state E);;
  ret ("🔍 Searched for " +:+ dquote +:+ query +:+ dquote +:+ " in Google").

(** [index in selector_map] *)
Definition in_selector_map (index : Z) : bool :=
  bool_decide (is_Some (selector_map E !! index)).

(** [selector_map[index]] *)
Definition selector_map_item (index : Z) : M dom_element :=
  match selector_map E !! index with
  | Some el => ret el
  | None => raise (key_error index)
  end.

Definition get_dom_element_by_index (index : Z) : M dom_element :=
  context_call "get_dom_element_by_index" (GetDomElementByIndex index);;
  selector_map_item index.

Definition click_not_found (index : Z) : exn :=
  mk_exn Exception
         ("Element with index " +:+ str_of_int index
          +:+ " does not exist - retry or use alternative actions").

Definition click_message (index : Z) (element_node : dom_element)
           (download_path : option string) : string :=
  if truthy_opt_str download_path then
    "💾 Downloaded file to " +:+ default "" download_path
  else
    "🖱️ Clicked button with index " +:+ str_of_int index +:+ ": "
    +:+ all_text_till_next_clickable_element element_node.

(** The body shared by the first attempt and the retry: click, build
    the message, switch to a tab that appeared. *)
Definition click_once (index : Z) (element_node : dom_element)
           (initial_pages : nat) : M string :=
  s <- get;;
  let attempt := click_attempts E (clicks s) in
  emit (ClickElementNode element_node);;
  modify (set_clicked (pages s + opened_pages attempt) (S (clicks s)));;
  download_path <- lift (click_result attempt);;
  let msg := click_message index element_node download_path in
  s' <- get;;
  if (initial_pages <? pages s')%nat then
    emit (SwitchToTab (-1));;
    check (switch_result attempt);;
    ret (msg +:+ " - New tab opened - switching to it")
  else ret msg.

(** The class of errors that is retried. *)
Definition retryable (e : exn) : bool :=
  str_in "Element not found" (exn_str e)
  || str_in "Failed to click element" (exn_str e).

Definition click_failed_after_waiting (index : Z) (e : exn) : exn :=
  mk_exn Exception
         ("Failed to click element with index " +:+ str_of_int index
          +:+ " even after waiting: " +:+ exn_str e).

Definition click_error_message (index : Z) (e : exn) : string :=
  "Error clicking element with index " +:+ str_of_int index +:+ ": "
  +:+ exn_str e
  +:+ ". Call inspect_page() and try finding the element again.".

Definition click_element (index : Z) : M string :=
  context_call "get_selector_map" GetSelectorMap;;
  if negb (in_selector_map index) then raise (click_not_found index)
  else
    element_node <- get_dom_element_by_index index;;
    context_call "get_session" GetSession;;
    s <- get;;
    let initial_pages := pages s in
    context_call "is_file_uploader" (IsFileUploader element_node);;
    if file_uploader element_node then
      ret ("Index " +:+ str_of_int index
           +:+ " - has an element which opens file upload dialog. Use a dedicated function for file uploads")
    else
      try_except
        (click_once index element_node initial_pages)
        (fun e =>
           if retryable e then
             emit (Sleep 1);;
             try_except
               (click_once index element_node initial_pages)
               (fun _ => raise (click_failed_after_waiting index e))
           else ret (click_error_message index e)).

Definition input_not_found (index : Z) : exn :=
  mk_exn Exception
         ("Element index " +:+ str_of_int index
          +:+ " does not exist - retry or use alternative actions").

Definition input_text (index : Z) (text : string) (has_sensitive_data : bool)
  : M string :=
  context_call "get_selector_map" GetSelectorMap;;
  if negb (in_selector_map index) then raise (input_not_found index)
  else
    element_node <- get_dom_element_by_index index;;
    context_call "_input_text_element_node"
                 (InputTextElementNode element_node text);;
    check (input_text_element_node E element_node text);;
    if negb has_sensitive_data then
      ret ("⌨️ Input " +:+ text +:+ " into index " +:+ str_of_int index)
    else
      ret ("⌨️ Input sensitive data into index " +:+ str_of_int index).

(** *** Dropdowns *)

(** [f'{opt["index"]}: text={encoded_text}'] *)
Definition format_option (opt : select_option) : string :=
  str_of_int (opt_index opt) +:+ ": text=" +:+ json_dumps E (opt_text opt).

(** One turn of the loop over [page.frames] in [get_dropdown_options]:
    the [try] block, with [except Exception: pass]. *)
Definition options_of_frame (xp : string) (frame_no : nat) (f : frame)
           (all_options : list string) : M (list string) :=
  try_except
    (emit (FrameEvaluateOptions frame_no xp);;
     options <- lift (eval_options f);;
     match options with
     | Some opts =>
         let formatted_options := map format_option opts in
         ret (all_options ++ formatted_options)%list
     | None => ret all_options
     end)
    (fun _ => ret all_options).

Fixpoint collect_options (xp : string) (frame_no : nat) (fs : list frame)
         (all_options : list string) : M (list string) :=
  match fs with
  | [] => ret all_options
  | f :: rest =>
      all_options' <- options_of_frame xp frame_no f all_options;;
      collect_options xp (S frame_no) rest all_options'
  end.

Definition options_listing (all_options : list string) : string :=
  match all_options with
  | [] => "No options found in any frame for dropdown"
  | _ => join nl all_options +:+ nl
         +:+ "Use the exact text string in select_dropdown_option"
  end.

Definition get_dropdown_options (index : Z) : M string :=
  context_call "get_current_page" GetCurrentPage;;
  context_call "get_selector_map" GetSelectorMap;;
  dom_element <- selector_map_item index;;
  all_options <- collect_options (xpath dom_element) 0 (frames E) [];;
  ret (options_listing all_options).

(** One turn of the loop in [select_dropdown_option]; [Some msg] is the
    [return] taken inside the loop. *)
Definition select_in_frame (xp text : string) (frame_no : nat) (f : frame)
  : M (option string) :=
  try_except
    (emit (FrameEvaluateFind frame_no xp);;
     dropdown_info <- lift (eval_find_dropdown f);;
     match dropdown_info with
     | Some true =>
         emit (FrameSelectOption frame_no ("//" +:+ xp) text);;
         selected_option_values <- lift (select_by_label f text);;
         ret (Some ("Selected option " +:+ text +:+ " with value "
                    +:+ str_of_values E selected_option_values))
     | _ => ret None
     end)
    (fun _ => ret None).

Fixpoint select_in_frames (xp text : string) (frame_no : nat)
         (fs : list frame) : M (option string) :=
  match fs with
  | [] => ret None
  | f :: rest =>
      r <- select_in_frame xp text frame_no f;;
      match r with
      | Some msg => ret (Some msg)
      | None => select_in_frames xp text (S frame_no) rest
      end
  end.

Definition select_dropdown_option (index : Z) (text : string) : M string :=
  context_call "get_current_page" GetCurrentPage;;
  context_call "get_selector_map" GetSelectorMap;;
  dom_element <- selector_map_item index;;
  if negb (tag_name dom_element =? "select") then
    ret ("Cannot select option: Element with index " +:+ str_of_int index
         +:+ " is a " +:+ tag_name dom_element +:+ ", not a select")
  else
    r <- select_in_frames (xpath dom_element) text 0 (frames E);;
    match r with
    | Some msg => ret msg
    | None => ret ("Could not select option '" +:+ text +:+ "' in any frame")
    end.

End Handlers.

(** ** Observations on a finished run *)

(** Run a handler and keep what the caller sees, the final state, and
    the calls made during the run. *)
Definition result_of {A} (m : M A) (s : state) : outcome A := fst (m s).
Definition state_after {A} (m : M A) (s : state) : state := snd (m s).
Definition calls_of {A} (m : M A) (s : state) : list event :=
  events_since s (state_after m s).

Definition is_click (ev : event) : bool :=
  match ev with ClickElementNode _ => true | _ => false end.

Definition is_sleep (ev : event) : bool :=
  match ev with Sleep _ => true | _ => false end.

Definition is_frame_probe (ev : event) : bool :=
  match ev with
  | FrameEvaluateOptions _ _ | FrameEvaluateFind _ _ | FrameSelectOption _ _ _ => true
  | _ => false
  end.

Definition count_events (p : event -> bool) (evs : list event) : nat :=
  length (List.filter p evs).

(** What the caller of [close_browser] observes from a state holding
    context [c] and connection [b]. *)
Definition both_released (s' : state) (r : outcome string) (calls : list event)
           (b c : handle) : Prop :=
  r = Returned "Browser closed successfully"
  /\ calls = [ContextClose c; BrowserClose b]
  /\ browser s' = None /\ browser_context s' = None.

Definition context_release_failed (s' : state) (r : outcome string)
           (calls : list event) (b c : handle) (e : exn) : Prop :=
  r = Raised e
  /\ calls = [ContextClose c]
  /\ browser s' = Some b /\ browser_context s' = Some c.

Definition connection_release_failed (s' : state) (r : outcome string)
           (calls : list event) (b c : handle) (e : exn) : Prop :=
  r = Raised e
  /\ calls = [ContextClose c; BrowserClose b]
  /\ browser s' = Some b /\ browser_context s' = None.

(** The Session Manager's invariant: the connections and contexts that
    are live are exactly the ones the two globals hold, and a context is
    held only together with a connection. *)
Definition session_ok (s : state) : Prop :=
  live_connections s = option_list (browser s)
  /\ live_contexts s = option_list (browser_context s)
  /\ (browser s = None -> browser_context s = None).



Definition is_construction (ev : event) : bool :=
  match ev with BrowserNew _ _ _ | ContextNew _ _ => true | _ => false end.


(** The state [open_session] leaves when it returns. *)
Definition opened (headless : bool) (chrome_path : string) (s : state) : state :=
  let b := next_handle s in
  let c := S b in
  {| browser := Some b; browser_context := Some c;
     live_connections := (live_connections s ++ [b])%list;
     live_contexts := (live_contexts s ++ [c])%list;
     next_handle := S c; pages := pages s; clicks := clicks s;
     trace := ((trace s ++ [BrowserNew b headless chrome_path])
                 ++ [ContextNew c b])%list |}.


(** What a click attempt that went through reports: the download or click
    message, with the note about the new tab when one appeared. *)
Definition click_confirmation (index : Z) (element_node : dom_element)
           (download_path : option string) (new_tab : bool) : string :=
  if new_tab then
    click_message index element_node download_path
    +:+ " - New tab opened - switching to it"
  else click_message index element_node download_path.

(** The calls [click_element] makes before it clicks. *)
Definition before_click (index : Z) (element_node : dom_element) : list event :=
  [GetSelectorMap; GetDomElementByIndex index; GetSession;
   IsFileUploader element_node].



Definition is_goto (ev : event) : bool :=
  match ev with PageGoto _ => true | _ => false end.

(** The two narrations of [input_text]. *)
Definition sensitive_narration (index : Z) : string :=
  "⌨️ Input sensitive data into index " +:+ str_of_int index.

Definition plain_narration (index : Z) (text : string) : string :=
  "⌨️ Input " +:+ text +:+ " into index " +:+ str_of_int index.

(** Several calls recorded in order. *)
Definition record_all (evs : list event) (s : state) : state :=
  fold_left (fun st ev => record_event ev st) evs s.

End Server.

(* ===================================================================== *)
(** * Vocabulary of the discovery policy, and concrete hosts *)
(* ===================================================================== *)

Module Policy.
Import Py Host.

(** The default browser is a Chromium derivative the module knows by
    name (Edge on macOS and Windows, Chromium on Linux) and neither of
    the two browsers looked for first; the result is the derivative's
    own executable path. *)
Definition chromium_derivative (h : host) : option string :=
  if system_of h =? "darwin" then
    match defaults_read h with
    | Returned r =>
        let output := lower (stdout r) in
        if (returncode r =? 0)%Z
           && names_none ["com.brave.browser"; "com.google.chrome"] output
           && str_in "com.microsoft.edgemac" output
        then Some mac_edge else None
    | Raised _ => None
    end
  else if system_of h =? "windows" then
    match winreg_progid h with
    | Returned (RegStr s) =>
        if names_none ["brave"; "chrome"] (lower s) && str_in "edge" (lower s)
        then Some win_edge else None
    | _ => None
    end
  else if system_of h =? "linux" then
    match xdg_settings h with
    | Returned r =>
        let default_browser := lower (strip (stdout r)) in
        if (returncode r =? 0)%Z
           && names_none ["brave"; "chrome"; "google-chrome"] default_browser
           && str_in "chromium" default_browser
        then Some linux_chromium else None
    | Raised _ => None
    end
  else None.

(** [os.path.expanduser] for a user whose home is [C:\Users\user]. *)
Definition expand_home (p : string) : string :=
  match p with
  | String "~" rest => "C:\Users\user" +:+ rest
  | _ => p
  end.

Definition no_such_command : exn :=
  mk_exn OtherError "[Errno 2] No such file or directory".

(** A host on which every probe raises and no file exists. *)
Definition bare_host (system : string) : host :=
  {| platform_system := system;
     defaults_read := Raised no_such_command;
     winreg_progid := Raised (mk_exn ImportError "No module named 'winreg'");
     xdg_settings := Raised no_such_command;
     path_exists := fun _ => false;
     expanduser := expand_home |}.

Definition with_progid (prog_id : string) (h : host) : host :=
  {| platform_system := platform_system h;
     defaults_read := defaults_read h;
     winreg_progid := Returned (RegStr prog_id);
     xdg_settings := xdg_settings h;
     path_exists := path_exists h;
     expanduser := expanduser h |}.

Definition with_xdg (status : Z) (out : string) (h : host) : host :=
  {| platform_system := platform_system h;
     defaults_read := defaults_read h;
     winreg_progid := winreg_progid h;
     xdg_settings := Returned (Completed status out);
     path_exists := path_exists h;
     expanduser := expanduser h |}.

(** Windows with Edge as the default browser. *)
Definition windows_edge : host := with_progid "MSEdgeHTM" (bare_host "Windows").

(** Linux with Brave, and Linux whose default browser is Firefox. *)
Definition linux_brave_default : host :=
  with_xdg 0 ("brave-browser.desktop" +:+ nl) (bare_host "Linux").
Definition linux_firefox : host :=
  with_xdg 0 ("firefox.desktop" +:+ nl) (bare_host "Linux").

(** An operating system outside the three families. *)
Definition freebsd : host := bare_host "FreeBSD".

End Policy.

(* ===================================================================== *)
(** * Concrete pages, sessions and surroundings *)
(* ===================================================================== *)

Module Scenarios.
Import Py Host Server Policy.

(** [json.dumps] on ASCII text: quotes around the text, the two-character
    escapes, and \u00XX for the other control characters.  Bytes above 127
    are left as they are. *)
Definition hex_digit (n : nat) : ascii :=
  nth n (list_ascii_of_string "0123456789abcdef") "0"%char.

Definition json_escape (c : ascii) : string :=
  let n := nat_of_ascii c in
  if (n =? 34)%nat then "\" +:+ dquote
  else if (n =? 92)%nat then "\\"
  else if (n =? 10)%nat then "\n"
  else if (n =? 13)%nat then "\r"
  else if (n =? 9)%nat then "\t"
  else if (n =? 8)%nat then "\b"
  else if (n =? 12)%nat then "\f"
  else if (n <? 32)%nat || (n =? 127)%nat then
    "\u00" +:+ String (hex_digit (n / 16)) (String (hex_digit (n mod 16)) "")
  else String c "".

Fixpoint json_escape_all (s : string) : string :=
  match s with
  | EmptyString => ""
  | String c s' => json_escape c +:+ json_escape_all s'
  end.

Definition json_dumps_ascii (s : string) : string :=
  dquote +:+ json_escape_all s +:+ dquote.

(** [str()] of a list of strings that need no escaping. *)
Definition str_of_plain_values (vs : list string) : string :=
  "[" +:+ join ", " (map (fun v => "'" +:+ v +:+ "'") vs) +:+ "]".

Definition button : dom_element :=
  {| tag_name := "button"; xpath := "html/body/form/button[1]";
     all_text_till_next_clickable_element := "Sign in";
     file_uploader := false |}.

Definition dropdown : dom_element :=
  {| tag_name := "select"; xpath := "html/body/form/select[1]";
     all_text_till_next_clickable_element := "";
     file_uploader := false |}.

Definition two_options : list select_option :=
  [ {| opt_text := "Red"; opt_value := "r"; opt_index := 0 |};
    {| opt_text := "Dark " +:+ dquote +:+ "green" +:+ dquote;
       opt_value := "g"; opt_index := 1 |} ].

Definition context_destroyed : exn :=
  mk_exn OtherError "Execution context was destroyed".

(** Frame A holds the dropdown; evaluation in frame B raises. *)
Definition frame_A : frame :=
  {| eval_options := Returned (Some two_options);
     eval_find_dropdown := Returned (Some true);
     select_by_label := fun label => Returned [label] |}.

Definition frame_B : frame :=
  {| eval_options := Raised context_destroyed;
     eval_find_dropdown := Raised context_destroyed;
     select_by_label := fun _ => Raised context_destroyed |}.

Definition plain_click : click_attempt :=
  {| opened_pages := 0; click_result := Returned None; switch_result := None |}.

Definition failing_click (msg : string) : click_attempt :=
  {| opened_pages := 0; click_result := Raised (mk_exn OtherError msg);
     switch_result := None |}.

(** Surroundings in which everything succeeds, up to the given host,
    release behaviour and sequence of click attempts. *)
Definition surroundings (h : host) (ctx_close br_close : handle -> option exn)
           (attempts : nat -> click_attempt) : env :=
  {| the_host := h;
     system_prompt := fun actions => "You are a browser agent. " +:+ actions;
     context_close := ctx_close;
     browser_close := br_close;
     selector_map := {[ 1%Z := button; 2%Z := dropdown ]};
     page_goto := fun _ => None;
     wait_for_load_state := None;
     click_attempts := attempts;
     input_text_element_node := fun _ _ => None;
     frames := [frame_A; frame_B];
     json_dumps := json_dumps_ascii;
     str_of_values := str_of_plain_values |}.

Definition always_released : handle -> option exn := fun _ => None.

Definition never_released : handle -> option exn :=
  fun _ => Some (mk_exn OtherError "Target closed").

Definition calm (h : host) : env :=
  surroundings h always_released always_released (fun _ => plain_click).

Definition calm_linux : env := calm linux_brave_default.

(** The context cannot be released. *)
Definition stuck_context : env :=
  surroundings linux_brave_default never_released always_released
               (fun _ => plain_click).

(** The first click fails with a retried error, the second succeeds. *)
Definition flaky_click : env :=
  surroundings linux_brave_default always_released always_released
               (fun n => match n with
                         | 0 => failing_click "Failed to click element: <button>"
                         | _ => plain_click
                         end).

(** Connection 0 and context 1 are live and held by the globals. *)
Definition live_session : state :=
  {| browser := Some 0; browser_context := Some 1;
     live_connections := [0]; live_contexts := [1];
     next_handle := 2; pages := 1; clicks := 0; trace := [] |}.

End Scenarios.

(* ===================================================================== *)
(** * The remaining tool handlers *)
(* ===================================================================== *)

Module Pages.
Import Py Host Server.
Local Open Scope py_scope.

(** ** Navigation to a literal URL, in the monad of [Server] *)

Definition go_to_url (E : env) (url : string) : M string :=
  context_call "get_current_page" GetCurrentPage;;
  emit (PageGoto url);;
  check (page_goto E url);;
  emit WaitForLoadState;;
  check (wait_for_load_state E);;
  ret ("🔗 Navigated to " +:+ url).

Local Close Scope py_scope.

(** ** Calls made by the other handlers *)

(** The three ways [scroll_to_text] locates an element. *)
Inductive locator : Set :=
| GetByText (text : string)            (* page.get_by_text(text, exact=False) *)
| Locator (selector : string).         (* page.locator(selector) *)

Inductive page_call : Set :=
| CurrentPage                          (* browser_context.get_current_page() *)
| GoBack                               (* browser_context.go_back() *)
| TabSwitch (page_id : Z)              (* browser_context.switch_to_tab(page_id) *)
| NewTab (url : string)                (* browser_context.create_new_tab(url) *)
| LoadState                            (* page.wait_for_load_state() *)
| GetState                             (* browser_context.get_state() *)
| Evaluate (script : string)           (* page.evaluate(script) *)
| KeyPress (key : string)              (* page.keyboard.press(key) *)
| Count (l : locator)                  (* locator.count() *)
| IsVisible (l : locator)              (* locator.first.is_visible() *)
| ScrollIntoView (l : locator)         (* locator.first.scroll_into_view_if_needed() *)
| SleepHalfSecond                      (* asyncio.sleep(0.5) *)
| SleepSeconds (seconds : Z)           (* asyncio.sleep(seconds) *)
| PageContent.                         (* page.content() *)

(** How the page and the library answer.  [press_result n key] is the
    answer to the press numbered [n] within one call of [send_keys];
    [characters] is the iteration over a [str], one one-character string
    at a time. *)
Record page_env : Type := {
  go_back_result : option exn;
  switch_to_tab_result : Z -> option exn;
  create_new_tab_result : string -> option exn;
  load_state_result : option exn;
  state_prompt : outcome string;  (* AgentMessagePrompt(state, ...).get_user_message(use_vision=False).content *)
  evaluate_result : string -> option exn;
  press_result : nat -> string -> option exn;
  characters : string -> list string;
  locator_count : locator -> outcome nat;
  locator_visible : locator -> outcome bool;
  locator_scroll : locator -> option exn;
  page_markdown : outcome string  (* markdownify.markdownify(await page.content()) *)
}.

(** ** The monad: the calls made so far, and exceptions *)

Definition T (A : Type) : Type := list page_call -> outcome A * list page_call.

Definition pure {A} (a : A) : T A := fun tr => (Returned a, tr).

Definition throw {A} (e : exn) : T A := fun tr => (Raised e, tr).

Definition and_then {A B} (m : T A) (k : A -> T B) : T B :=
  fun tr => match m tr with
            | (Returned a, tr') => k a tr'
            | (Raised e, tr') => (Raised e, tr')
            end.

(** [try: body except Exception as e: handler] *)
Definition attempt {A} (body : T A) (handler : exn -> T A) : T A :=
  fun tr => match body tr with
            | (Returned a, tr') => (Returned a, tr')
            | (Raised e, tr') => handler e tr'
            end.

Definition call (c : page_call) : T unit := fun tr => (Returned tt, (tr ++ [c])%list).

Definition answer {A} (o : outcome A) : T A := fun tr => (o, tr).

Definition expect (r : option exn) : T unit :=
  match r with
  | Some e => throw e
  | None => pure tt
  end.

Declare Scope page_scope.
Delimit Scope page_scope with page.
Notation "x <- m ;; k" := (and_then m (fun x => k))
  (at level 100, m at next level, right associativity) : page_scope.
Notation "m ;; k" := (and_then m (fun _ => k))
  (at level 100, right associativity) : page_scope.
Local Open Scope page_scope.

(** What a handler started with no call made yet returns, and the calls
    it makes. *)
Definition reply {A} (m : T A) : outcome A := fst (m []).
Definition made {A} (m : T A) : list page_call := snd (m []).

(** The record returned by [done]. *)
Record done_result : Set := {
  is_done : bool;
  success : bool;
  extracted_content : string
}.

(** [s[:n]], on the sequence that models the [str] (its characters, for
    ASCII text). *)
Fixpoint str_take (n : nat) (s : string) : string :=
  match n, s with
  | S n', String c s' => String c (str_take n' s')
  | _, _ => EmptyString
  end.

Section Handlers.
Context (P : page_env).

(** The global [browser_context] as the handler finds it. *)
Context (s : state).

(** [await browser_context.method(...)] *)
Definition on_context (method : string) (c : page_call) : T unit :=
  match browser_context s with
  | Some _ => call c
  | None => throw (none_has_no_attribute method)
  end.

Definition go_back : T string :=
  on_context "go_back" GoBack;;
  expect (go_back_result P);;
  pure "🔙 Navigated back".

Definition wait (seconds : Z) : T string :=
  call (SleepSeconds seconds);;
  pure ("🕒 Waiting for " +:+ str_of_int seconds +:+ " seconds").

Definition switch_tab (page_id : Z) : T string :=
  on_context "switch_to_tab" (TabSwitch page_id);;
  expect (switch_to_tab_result P page_id);;
  on_context "get_current_page" CurrentPage;;
  call LoadState;;
  expect (load_state_result P);;
  pure ("🔄 Switched to tab " +:+ str_of_int page_id).

Definition open_tab (url : string) : T string :=
  on_context "create_new_tab" (NewTab url);;
  expect (create_new_tab_result P url);;
  pure ("🔗 Opened new tab with " +:+ url).

Definition inspect_page : T string :=
  on_context "get_state" GetState;;
  answer (state_prompt P).

Definition scroll_down_script (amount : option Z) : string :=
  match amount with
  | Some a => "window.scrollBy(0, " +:+ str_of_int a +:+ ");"
  | None => "window.scrollBy(0, window.innerHeight);"
  end.

Definition scroll_up_script (amount : option Z) : string :=
  match amount with
  | Some a => "window.scrollBy(0, -" +:+ str_of_int a +:+ ");"
  | None => "window.scrollBy(0, -window.innerHeight);"
  end.

Definition amount_str (amount : option Z) : string :=
  match amount with
  | Some a => str_of_int a +:+ " pixels"
  | None => "one page"
  end.

Definition scroll_down (amount : option Z) : T string :=
  on_context "get_current_page" CurrentPage;;
  call (Evaluate (scroll_down_script amount));;
  expect (evaluate_result P (scroll_down_script amount));;
  pure ("🔍 Scrolled down the page by " +:+ amount_str amount).

Definition scroll_up (amount : option Z) : T string :=
  on_context "get_current_page" CurrentPage;;
  call (Evaluate (scroll_up_script amount));;
  expect (evaluate_result P (scroll_up_script amount));;
  pure ("🔍 Scrolled up the page by " +:+ amount_str amount).

(** [for key in keys: await page.keyboard.press(key)], the presses being
    numbered from [n]. *)
Fixpoint press_each (n : nat) (keys : list string) : T unit :=
  match keys with
  | [] => pure tt
  | key :: rest =>
      call (KeyPress key);;
      expect (press_result P n key);;
      press_each (S n) rest
  end.

Definition send_keys (keys : string) : T string :=
  on_context "get_current_page" CurrentPage;;
  attempt
    (call (KeyPress keys);;
     expect (press_result P 0 keys))
    (fun e =>
       if str_in "Unknown key" (exn_str e) then
         press_each 1 (characters P keys)
       else throw e);;
  pure ("⌨️ Sent keys: " +:+ keys).

Definition locators_for (text : string) : list locator :=
  [ GetByText text;
    Locator ("text=" +:+ text);
    Locator ("//*[contains(text(), '" +:+ text +:+ "')]") ].

(** One turn of the loop of [scroll_to_text]; [Some msg] is the [return]
    taken inside the loop, [None] falls through or [continue]s. *)
Definition try_locator (text : string) (l : locator) : T (option string) :=
  attempt
    (call (Count l);;
     n <- answer (locator_count P l);;
     if (0 <? n)%nat then
       call (IsVisible l);;
       visible <- answer (locator_visible P l);;
       if visible : bool then
         call (ScrollIntoView l);;
         expect (locator_scroll P l);;
         call SleepHalfSecond;;
         pure (Some ("🔍 Scrolled to text: " +:+ text))
       else pure None
     else pure None)
    (fun _ => pure None).

Fixpoint try_locators (text : string) (ls : list locator) : T (option string) :=
  match ls with
  | [] => pure None
  | l :: rest =>
      r <- try_locator text l;;
      match r with
      | Some msg => pure (Some msg)
      | None => try_locators text rest
      end
  end.

Definition scroll_to_text (text : string) : T string :=
  on_context "get_current_page" CurrentPage;;
  r <- try_locators text (locators_for text);;
  match r with
  | Some msg => pure msg
  | None => pure ("Text '" +:+ text +:+ "' not found or not visible on page")
  end.

Definition validate_page (expected_text : string) : T string :=
  on_context "get_current_page" CurrentPage;;
  call PageContent;;
  content <- answer (page_markdown P);;
  if truthy_str expected_text
     && str_in (lower expected_text) (lower content) then
    pure ("✅ Validation successful: Expected text '" +:+ expected_text
          +:+ "' found on page.")
  else if truthy_str expected_text then
    pure ("⚠ Validation warning: Expected text '" +:+ expected_text
          +:+ "' not found. Extracted snippet: " +:+ str_take 200 content
          +:+ "...")
  else
    pure ("Page content extracted:" +:+ nl +:+ str_take 500 content +:+ "...").

Definition done (success : bool) (text : string) : T done_result :=
  pure {| is_done := true; success := success; extracted_content := text |}.

End Handlers.

End Pages.

(* ===================================================================== *)
(** * Further vocabulary and concrete pages *)
(* ===================================================================== *)

Module Observations.
Import Py Host Server Policy Scenarios Pages.

(** The host with the same answers spelled in lower case. *)
Definition lower_completed (o : outcome completed) : outcome completed :=
  match o with
  | Returned r => Returned (Completed (returncode r) (lower (stdout r)))
  | Raised e => Raised e
  end.

Definition lower_registry (o : outcome registry_value) : outcome registry_value :=
  match o with
  | Returned (RegStr s) => Returned (RegStr (lower s))
  | other => other
  end.

Definition lowercased (h : host) : host :=
  {| platform_system := lower (platform_system h);
     defaults_read := lower_completed (defaults_read h);
     winreg_progid := lower_registry (winreg_progid h);
     xdg_settings := lower_completed (xdg_settings h);
     path_exists := path_exists h;
     expanduser := expanduser h |}.

(** ** Pages for the click and input handlers *)

Definition upload_input : dom_element :=
  {| tag_name := "input"; xpath := "html/body/form/input[2]";
     all_text_till_next_clickable_element := "";
     file_uploader := true |}.

(** Surroundings like [surroundings], on a page whose interactive
    elements are [elements] and whose element writes answer [writes]. *)
Definition page_of (elements : gmap Z dom_element)
           (attempts : nat -> click_attempt)
           (writes : dom_element -> string -> option exn) : env :=
  {| the_host := linux_brave_default;
     system_prompt := fun actions => "You are a browser agent. " +:+ actions;
     context_close := always_released;
     browser_close := always_released;
     selector_map := elements;
     page_goto := fun _ => None;
     wait_for_load_state := None;
     click_attempts := attempts;
     input_text_element_node := writes;
     frames := [frame_A; frame_B];
     json_dumps := json_dumps_ascii;
     str_of_values := str_of_plain_values |}.

Definition form_elements : gmap Z dom_element :=
  {[ 1%Z := button; 2%Z := dropdown; 5%Z := upload_input ]}.

(** A click that opens a new tab, and one after which the switch to the
    new tab raises. *)
Definition popup_click : click_attempt :=
  {| opened_pages := 1; click_result := Returned None; switch_result := None |}.

Definition lost_popup_click (msg : string) : click_attempt :=
  {| opened_pages := 1; click_result := Returned None;
     switch_result := Some (mk_exn OtherError msg) |}.

Definition form_page : env :=
  page_of form_elements (fun _ => plain_click) (fun _ _ => None).

Definition popup_page : env :=
  page_of form_elements (fun _ => popup_click) (fun _ _ => None).

Definition lost_popup_page (msg : string) : env :=
  page_of form_elements (fun _ => lost_popup_click msg) (fun _ _ => None).

(** The element rejects every write. *)
Definition detached : exn := mk_exn OtherError "Element is not attached to the DOM".

Definition read_only_page : env :=
  page_of form_elements (fun _ => plain_click) (fun _ _ => Some detached).

(** ** Frames as [select_dropdown_option] sees them *)

(** The values selected in a frame: the frame reports the control as found
    and the selection by label goes through. *)
Definition frame_selects (text : string) (f : frame) : option (list string) :=
  match eval_find_dropdown f with
  | Returned (Some true) =>
      match select_by_label f text with
      | Returned values => Some values
      | Raised _ => None
      end
  | _ => None
  end.

(** The calls made in one frame: the evaluation, and the selection when
    the control was reported as found. *)
Definition select_probes (xp text : string) (frame_no : nat) (f : frame)
  : list event :=
  match eval_find_dropdown f with
  | Returned (Some true) =>
      [FrameEvaluateFind frame_no xp;
       FrameSelectOption frame_no ("//" +:+ xp) text]
  | _ => [FrameEvaluateFind frame_no xp]
  end.

Fixpoint select_probes_from (xp text : string) (frame_no : nat)
         (fs : list frame) : list event :=
  match fs with
  | [] => []
  | f :: rest =>
      (select_probes xp text frame_no f
       ++ select_probes_from xp text (S frame_no) rest)%list
  end.

(** A second frame holding the dropdown, with other values. *)
Definition frame_C : frame :=
  {| eval_options := Returned (Some two_options);
     eval_find_dropdown := Returned (Some true);
     select_by_label := fun label => Returned ["c-" +:+ label] |}.

(** A frame without the element. *)
Definition frame_empty : frame :=
  {| eval_options := Returned None;
     eval_find_dropdown := Returned None;
     select_by_label := fun _ => Raised context_destroyed |}.

Definition framed_page (fs : list frame) : env :=
  {| the_host := linux_brave_default;
     system_prompt := fun actions => "You are a browser agent. " +:+ actions;
     context_close := always_released;
     browser_close := always_released;
     selector_map := form_elements;
     page_goto := fun _ => None;
     wait_for_load_state := None;
     click_attempts := fun _ => plain_click;
     input_text_element_node := fun _ _ => None;
     frames := fs;
     json_dumps := json_dumps_ascii;
     str_of_values := str_of_plain_values |}.

(** ** Handlers called with no session *)

(** The handler raises the AttributeError of [None.method] and leaves the
    state, trace included, as it was. *)
Definition fails_without_session {A} (m : M A) (s : state) (method : string)
  : Prop :=
  m s = (Raised (mk_exn AttributeError
                        ("'NoneType' object has no attribute '" +:+ method +:+ "'")),
         s).

Definition page_fails_without_session {A} (m : T A) (method : string) : Prop :=
  m [] = (Raised (mk_exn AttributeError
                         ("'NoneType' object has no attribute '" +:+ method +:+ "'")),
          []).

(** A host page on which the navigation is refused. *)
Definition unreachable : exn := mk_exn OtherError "net::ERR_NAME_NOT_RESOLVED".

Definition offline_page : env :=
  {| the_host := linux_brave_default;
     system_prompt := fun actions => "You are a browser agent. " +:+ actions;
     context_close := always_released;
     browser_close := always_released;
     selector_map := form_elements;
     page_goto := fun _ => Some unreachable;
     wait_for_load_state := None;
     click_attempts := fun _ => plain_click;
     input_text_element_node := fun _ _ => None;
     frames := [];
     json_dumps := json_dumps_ascii;
     str_of_values := str_of_plain_values |}.

(** ** Pages for the remaining handlers *)

(** Iteration over a [str] of ASCII characters. *)
Definition ascii_characters (s : string) : list string :=
  map (fun c => String c EmptyString) (list_ascii_of_string s).

Definition unknown_key (key : string) : exn :=
  mk_exn OtherError ("Keyboard.press: Unknown key: " +:+ dquote +:+ key +:+ dquote).

(** A keyboard that knows single characters only, and one on which the
    key [bad] is stuck as well. *)
Definition letters_only : nat -> string -> option exn :=
  fun _ key => if (String.length key <=? 1)%nat then None
               else Some (unknown_key key).

Definition stuck_key (bad : string) : nat -> string -> option exn :=
  fun _ key => if (String.length key <=? 1)%nat && negb (key =? bad) then None
               else if key =? bad then Some (mk_exn OtherError "Target closed")
               else Some (unknown_key key).

(** The locator is usable: it matches, its first match is visible and can
    be scrolled to. *)
Definition locator_usable (P : page_env) (l : locator) : bool :=
  match locator_count P l, locator_visible P l, locator_scroll P l with
  | Returned (S _), Returned true, None => true
  | _, _, _ => false
  end.

(** The calls made on one locator by one turn of the loop. *)
Definition locator_probes (P : page_env) (l : locator) : list page_call :=
  match locator_count P l with
  | Returned (S _) =>
      match locator_visible P l with
      | Returned true =>
          match locator_scroll P l with
          | None => [Count l; IsVisible l; ScrollIntoView l; SleepHalfSecond]
          | Some _ => [Count l; IsVisible l; ScrollIntoView l]
          end
      | _ => [Count l; IsVisible l]
      end
  | _ => [Count l]
  end.

(** A page on which only CSS/XPath selectors find something, followed by
    a page holding [content] whose keyboard is [keyboard]. *)
Definition selectors_only : locator -> outcome nat :=
  fun l => match l with
           | GetByText _ => Raised (mk_exn OtherError "Timeout 30000ms exceeded")
           | Locator _ => Returned 2
           end.

Definition scene (keyboard : nat -> string -> option exn)
           (counts : locator -> outcome nat) (content : string) : page_env :=
  {| go_back_result := None;
     switch_to_tab_result := fun _ => None;
     create_new_tab_result := fun _ => None;
     load_state_result := None;
     state_prompt := Returned "[Start of page]";
     evaluate_result := fun _ => None;
     press_result := keyboard;
     characters := ascii_characters;
     locator_count := counts;
     locator_visible := fun _ => Returned true;
     locator_scroll := fun _ => None;
     page_markdown := Returned content |}.

Definition plain_scene : page_env :=
  scene letters_only selectors_only "Welcome back, Alice".

End Observations.

(* ===================================================================== *)
(** * Properties of browser discovery *)
(* ===================================================================== *)

Module HostProps.
Import Py Host Policy.

Example detect_linux_brave :
  detect_default_browser linux_brave_default = Returned ("brave", Some linux_brave).
Proof. reflexivity. Qed.

Example detect_windows_edge :
  detect_default_browser windows_edge = Returned ("chrome", Some win_edge).
Proof. reflexivity. Qed.

Example detect_linux_firefox :
  detect_default_browser linux_firefox = Returned ("chrome", None).
Proof. reflexivity. Qed.

Example detect_freebsd :
  detect_default_browser freebsd = Returned ("chrome", None).
Proof. reflexivity. Qed.

Example detect_darwin_probe_raises :
  detect_default_browser (bare_host "Darwin") = Returned ("chrome", None).
Proof. reflexivity. Qed.

Example strip_lower_sample :
  lower (strip ("  Google-Chrome.desktop " +:+ nl)) = "google-chrome.desktop".
Proof. reflexivity. Qed.

Example title_sample : title "chrome" = "Chrome" /\ title "brave browser" = "Brave Browser".
Proof. split; reflexivity. Qed.

Example str_of_int_sample :
  str_of_int 0 = "0" /\ str_of_int 42 = "42" /\ str_of_int (-7) = "-7".
Proof. repeat split; reflexivity. Qed.

(** Case analysis on every test the discovery code performs. *)
Ltac split_tests :=
  repeat match goal with
         | _ => progress (cbn [obind otry is_raised negb orb andb forallb
                               exn_cls returncode stdout])
         | |- context [String.eqb ?a ?b] => destruct (String.eqb a b) eqn:?
         | |- context [Z.eqb ?a ?b] => destruct (Z.eqb a b) eqn:?
         | |- context [str_in ?a ?b] => destruct (str_in a b) eqn:?
         | |- context [first_existing ?h ?l] => destruct (first_existing h l) eqn:?
         | |- context [path_exists ?h ?p] => destruct (path_exists h p) eqn:?
         end.

(** Each probe, when it returns from inside, names a recognized kind. *)
Lemma probe_darwin_kind h info :
  probe_darwin h = Returned (Some info) -> recognized_kind (fst info).
Proof.
  unfold probe_darwin, recognized_kind, primary_kind, alternative_kind.
  destruct (defaults_read h) as [r|e]; cbn [obind]; [|discriminate].
  split_tests; intros [= <-]; cbn; auto.
Qed.

Lemma probe_windows_kind h info :
  probe_windows h = Returned (Some info) -> recognized_kind (fst info).
Proof.
  unfold probe_windows, probe_windows_body, recognized_kind,
    primary_kind, alternative_kind.
  destruct (winreg_progid h) as [[s|]|e]; cbn [obind otry registry_lower].
  - split_tests; intros [= <-]; cbn; auto.
  - discriminate.
  - destruct (exn_cls e); discriminate.
Qed.

Lemma probe_linux_kind h info :
  probe_linux h = Returned (Some info) -> recognized_kind (fst info).
Proof.
  unfold probe_linux, probe_linux_body, recognized_kind,
    primary_kind, alternative_kind.
  destruct (xdg_settings h) as [r|e]; cbn [obind otry]; [|discriminate].
  split_tests; intros [= <-]; cbn; auto.
Qed.

(** The two inner handlers leave nothing to propagate. *)
Lemma probe_windows_returns h : exists r, probe_windows h = Returned r.
Proof.
  unfold probe_windows.
  destruct (probe_windows_body h) as [r|e]; cbn [otry]; eauto.
  destruct (exn_cls e); eauto.
Qed.

Lemma probe_linux_returns h : exists r, probe_linux h = Returned r.
Proof.
  unfold probe_linux.
  destruct (probe_linux_body h) as [r|e]; cbn [otry]; eauto.
Qed.

Ltac settle_fallback :=
  do 2 eexists; split; [reflexivity|];
  split; [unfold recognized_kind, primary_kind, alternative_kind; auto|];
  cbn; intros [?|[?|?]]; solve [discriminate | reflexivity].

(** C3.  On every host, whatever its operating system reports and however
    the probe for that system ends, [detect_default_browser] returns a
    pair and raises nothing; the kind is "chrome" or "brave"; and when the
    system is not one of the three families, or the probe raised, or its
    answer named no browser looked for, the pair is ("chrome", None). *)
Theorem detect_default_browser_never_raises (h : host) :
  exists kind path,
    detect_default_browser h = Returned (kind, path)
    /\ recognized_kind kind
    /\ (recognized_os h = false \/ probe_failed h = true
        \/ probe_inconclusive h = true ->
        (kind, path) = fallback).
Proof.
  unfold detect_default_browser, recognized_os, probe_failed,
    probe_inconclusive, completed_inconclusive, names_none, fallback.
  destruct (system_of h =? "darwin") eqn:Hd;
    [|destruct (system_of h =? "windows") eqn:Hw;
      [|destruct (system_of h =? "linux") eqn:Hl]].
  - unfold probe_darwin.
    destruct (defaults_read h) as [r|e]; cbn [obind otry is_raised];
      [|settle_fallback].
    split_tests; settle_fallback.
  - unfold probe_windows, probe_windows_body.
    destruct (winreg_progid h) as [[s|]|e];
      cbn [obind otry registry_lower exn_cls].
    + split_tests; settle_fallback.
    + settle_fallback.
    + destruct (exn_cls e); settle_fallback.
  - unfold probe_linux, probe_linux_body.
    destruct (xdg_settings h) as [r|e]; cbn [obind otry is_raised];
      [|settle_fallback].
    split_tests; settle_fallback.
  - settle_fallback.
Qed.

Lemma detect_default_browser_returns (h : host) :
  exists info, detect_default_browser h = Returned info.
Proof.
  unfold detect_default_browser.
  destruct (system_of h =? "darwin");
    [|destruct (system_of h =? "windows");
      [|destruct (system_of h =? "linux")]].
  - destruct (probe_darwin h) as [[i|]|e]; cbn; eauto.
  - destruct (probe_windows_returns h) as [[i|] ->]; cbn; eauto.
  - destruct (probe_linux_returns h) as [[i|] ->]; cbn; eauto.
  - cbn; eauto.
Qed.

(** The theorem at a host whose probe is inconclusive. *)
Lemma detect_default_browser_never_raises_witness :
  probe_inconclusive linux_firefox = true
  /\ exists kind path,
       detect_default_browser linux_firefox = Returned (kind, path)
       /\ recognized_kind kind
       /\ (kind, path) = fallback.
Proof.
  split; [reflexivity|].
  destruct (detect_default_browser_never_raises linux_firefox)
    as (kind & path & Hrun & Hkind & Hfall).
  exists kind, path. repeat split; try assumption.
  apply Hfall. right; right; reflexivity.
Defined.

(** C4 as written fails: with Edge as the Windows default browser the
    result keeps Edge's own path but its kind is the primary one,
    "chrome", not the alternative one, "brave". *)
Lemma edge_is_not_reported_as_alternative_kind :
  chromium_derivative windows_edge = Some win_edge
  /\ detect_default_browser windows_edge = Returned (primary_kind, Some win_edge)
  /\ ~ (exists path,
          detect_default_browser windows_edge = Returned (alternative_kind, path)).
Proof.
  split; [reflexivity|]. split; [reflexivity|].
  intros [path H]. vm_compute in H. discriminate H.
Qed.

(** C4, amended.  A default browser recognized as a Chromium derivative
    (Edge, Chromium) is reported under the primary kind "chrome" together
    with the derivative's own executable path; a probe whose answer names
    no browser looked for yields ("chrome", None). *)
Theorem chromium_derivative_reported_as_primary (h : host) :
  (forall own_path,
      chromium_derivative h = Some own_path ->
      detect_default_browser h = Returned (primary_kind, Some own_path))
  /\ (probe_inconclusive h = true ->
      detect_default_browser h = Returned fallback).
Proof.
  unfold chromium_derivative, detect_default_browser, probe_inconclusive,
    completed_inconclusive, names_none, fallback, primary_kind.
  destruct (system_of h =? "darwin") eqn:Hd;
    [|destruct (system_of h =? "windows") eqn:Hw;
      [|destruct (system_of h =? "linux") eqn:Hl]].
  - unfold probe_darwin.
    destruct (defaults_read h) as [r|e]; cbn [obind otry];
      [|split; [intros ?|]; discriminate].
    cbv zeta; split_tests; (split; [intros own_path|]); intros [=]; subst; reflexivity.
  - unfold probe_windows, probe_windows_body.
    destruct (winreg_progid h) as [[s|]|e];
      cbn [obind otry registry_lower exn_cls];
      try (split; [intros ?|]; discriminate).
    cbv zeta; split_tests; (split; [intros own_path|]); intros [=]; subst; reflexivity.
  - unfold probe_linux, probe_linux_body.
    destruct (xdg_settings h) as [r|e]; cbn [obind otry];
      [|split; [intros ?|]; discriminate].
    cbv zeta; split_tests; (split; [intros own_path|]); intros [=]; subst; reflexivity.
  - split; [intros ?|]; discriminate.
Qed.

Lemma chromium_derivative_reported_as_primary_witness :
  chromium_derivative windows_edge = Some win_edge
  /\ detect_default_browser windows_edge = Returned (primary_kind, Some win_edge).
Proof.
  split; [reflexivity|].
  apply (proj1 (chromium_derivative_reported_as_primary windows_edge)).
  reflexivity.
Defined.

End HostProps.

(* ===================================================================== *)
(** * Properties of the session lifecycle and of the tools *)
(* ===================================================================== *)

Module ServerProps.
Import Py Host Server Policy Scenarios.

Example json_dumps_sample :
  json_dumps_ascii ("a" +:+ dquote +:+ "b\" +:+ nl)
  = dquote +:+ "a\" +:+ dquote +:+ "b\\\n" +:+ dquote.
Proof. reflexivity. Qed.

Example close_live_session :
  close_browser calm_linux live_session
  = (Returned "Browser closed successfully",
     {| browser := None; browser_context := None;
        live_connections := []; live_contexts := [];
        next_handle := 2; pages := 1; clicks := 0;
        trace := [ContextClose 1; BrowserClose 0] |}).
Proof. reflexivity. Qed.

Example close_when_closed :
  close_browser calm_linux initial_state
  = (Returned "Browser closed successfully", initial_state).
Proof. reflexivity. Qed.

Example initialize_from_closed :
  calls_of (initialize_browser calm_linux false "book a table") initial_state
  = [BrowserNew 0 false linux_brave; ContextNew 1 0].
Proof. reflexivity. Qed.

(** ** Reading the trace *)

Lemma events_since_app (tr : list event) evs :
  drop (length tr) (tr ++ evs) = evs.
Proof. apply drop_app_length. Qed.

Lemma events_since_nil (tr : list event) : drop (length tr) tr = [].
Proof. apply drop_all. Qed.

Ltac read_trace :=
  unfold result_of, state_after, calls_of, events_since; cbn -[Nat.ltb];
  rewrite <- ?app_assoc; rewrite ?events_since_app, ?events_since_nil;
  cbn -[Nat.ltb].

Ltac unfold_monad :=
  unfold bind, ret, raise, get, modify, emit, lift, check, try_except in *.

(** ** [close_browser] *)

(** C2 as written fails: when the release of the context raises, the
    error reaches the caller and the release of the connection is never
    attempted. *)
Lemma connection_release_skipped_when_context_release_fails :
  result_of (close_browser stuck_context) live_session
  = Raised (mk_exn OtherError "Target closed")
  /\ (BrowserClose 0 ∉ calls_of (close_browser stuck_context) live_session)
  /\ browser (state_after (close_browser stuck_context) live_session) = Some 0.
Proof.
  split; [reflexivity|]. split; [|reflexivity].
  vm_compute. intros H. inversion H as [|? ? ? H']; subst. inversion H'.
Qed.

(** C2, amended.  Each release step of [close_browser] is guarded by the
    presence of its handle only.  With both handles present: a failure
    releasing the context reaches the caller at once, the connection
    release is not attempted and both handles stay set; a failure
    releasing the connection, attempted after the context was released and
    cleared, reaches the caller with the connection handle still set; with
    no failure both are released in that order and cleared. *)
Theorem close_browser_release_failure_propagates (E : env) (s : state)
        (b c : handle) :
  browser s = Some b ->
  browser_context s = Some c ->
  let r := result_of (close_browser E) s in
  let s' := state_after (close_browser E) s in
  let calls := calls_of (close_browser E) s in
  match context_close E c, browser_close E b with
  | Some e, _ => context_release_failed s' r calls b c e
  | None, Some e => connection_release_failed s' r calls b c e
  | None, None => both_released s' r calls b c
  end.
Proof.
  destruct s as [br cx conns ctxs nh pg ck tr]; cbn.
  intros -> ->.
  unfold both_released, context_release_failed, connection_release_failed.
  unfold close_browser, release_context, release_browser. unfold_monad.
  destruct (context_close E c) as [e|] eqn:Hc.
  - read_trace. rewrite Hc. read_trace. auto.
  - destruct (browser_close E b) as [e|] eqn:Hb;
      read_trace; rewrite Hc; read_trace; rewrite Hb; read_trace; auto.
Qed.

Lemma close_browser_release_failure_propagates_witness :
  context_release_failed
    (state_after (close_browser stuck_context) live_session)
    (result_of (close_browser stuck_context) live_session)
    (calls_of (close_browser stuck_context) live_session)
    0 1 (mk_exn OtherError "Target closed").
Proof.
  exact (close_browser_release_failure_propagates
           stuck_context live_session 0 1 eq_refl eq_refl).
Defined.

(** ** [initialize_browser] *)


Lemma initialize_browser_unfold (E : env) headless task (s : state) :
  initialize_browser E headless task s
  = match browser s with
    | None => open_session E headless task s
    | Some _ =>
        match close_browser E s with
        | (Returned _, s1) => open_session E headless task s1
        | (Raised e, s1) => (Raised e, s1)
        end
    end.
Proof.
  unfold initialize_browser, bind, get, ret.
  destruct (browser s); [|reflexivity].
  destruct (close_browser E s) as [[msg|e] s1]; reflexivity.
Qed.

Ltac decide_self :=
  repeat match goal with
         | |- context [decide (?c <> ?c)] =>
             destruct (decide (c <> c)) as [Hne|_];
             [exfalso; apply Hne; reflexivity|]
         end.

Ltac settle_session :=
  decide_self;
  repeat match goal with
         | |- _ /\ _ => split
         | |- Forall _ _ => repeat constructor
         | |- _ = _ => reflexivity
         | |- _ = _ -> _ => let H := fresh in intros H; try discriminate H
         | |- forall _, Some _ = Some _ -> _ => intros ? [= <-]
         | |- forall _, None = Some _ -> _ => intros ? [=]
         | |- _ ∈ _ => set_solver
         end.

(** [close_browser] keeps the invariant, constructs nothing, and when it
    returns has released and cleared whatever was held. *)
Lemma close_browser_session (E : env) (s : state) :
  session_ok s ->
  exists calls,
    trace (snd (close_browser E s)) = (trace s ++ calls)%list
    /\ Forall (fun ev => is_construction ev = false) calls
    /\ session_ok (snd (close_browser E s))
    /\ (is_raised (fst (close_browser E s)) = false ->
        browser (snd (close_browser E s)) = None
        /\ browser_context (snd (close_browser E s)) = None
        /\ (forall b, browser s = Some b -> BrowserClose b ∈ calls)
        /\ (forall c, browser_context s = Some c -> ContextClose c ∈ calls)).
Proof.
  destruct s as [br cx conns ctxs nh pg ck tr].
  unfold session_ok; cbn. intros (-> & -> & Hheld).
  unfold close_browser, release_context, release_browser. unfold_monad.
  destruct cx as [c|], br as [b|]; cbn.
  - destruct (context_close E c) as [e|] eqn:Hc; cbn.
    + exists [ContextClose c]. settle_session.
    + destruct (browser_close E b) as [e|] eqn:Hb; cbn;
        exists [ContextClose c; BrowserClose b];
        rewrite <- ?app_assoc; cbn; settle_session.
  - specialize (Hheld eq_refl); discriminate.
  - destruct (browser_close E b) as [e|] eqn:Hb; cbn;
      exists [BrowserClose b]; settle_session.
  - exists []. rewrite app_nil_r. settle_session.
Qed.






Example initialize_twice_trace :
  calls_of (initialize_browser calm_linux true "second")
           (state_after (initialize_browser calm_linux false "first") initial_state)
  = [ContextClose 1; BrowserClose 0; BrowserNew 2 true linux_brave; ContextNew 3 2].
Proof. reflexivity. Qed.




(** ** Element resolution *)

Lemma absent_not_in_selector_map (E : env) index :
  selector_map E !! index = None -> in_selector_map E index = false.
Proof. unfold in_selector_map. intros ->. reflexivity. Qed.

Lemma present_in_selector_map (E : env) index el :
  selector_map E !! index = Some el -> in_selector_map E index = true.
Proof. unfold in_selector_map. intros ->. reflexivity. Qed.

Example click_absent_index_sample :
  click_element calm_linux 7 live_session
  = (Raised (mk_exn Exception
       "Element with index 7 does not exist - retry or use alternative actions"),
     record_event GetSelectorMap live_session).
Proof. reflexivity. Qed.

(** C5.  With a session open, [click_element] on an index that is absent
    from the interactive-element map raises the not-found error; the only
    call made is the fetch of the map: no click, no file-uploader check,
    no delay before a retry. *)
Theorem click_element_absent_index_raises (E : env) (s : state) (index : Z)
        (c : handle) :
  browser_context s = Some c ->
  selector_map E !! index = None ->
  result_of (click_element E index) s = Raised (click_not_found index)
  /\ calls_of (click_element E index) s = [GetSelectorMap]
  /\ count_events is_click (calls_of (click_element E index) s) = 0
  /\ count_events is_sleep (calls_of (click_element E index) s) = 0
  /\ (forall el, IsFileUploader el ∉ calls_of (click_element E index) s).
Proof.
  intros Hcx Habsent.
  assert (Hcalls : calls_of (click_element E index) s = [GetSelectorMap]).
  { destruct s as [br cx conns ctxs nh pg ck tr]; cbn in Hcx; subst cx.
    unfold click_element, context_call. unfold_monad.
    read_trace. rewrite (absent_not_in_selector_map E index Habsent).
    read_trace. reflexivity. }
  rewrite Hcalls. repeat split.
  - destruct s as [br cx conns ctxs nh pg ck tr]; cbn in Hcx; subst cx.
    unfold click_element, context_call, result_of. unfold_monad. cbn.
    rewrite (absent_not_in_selector_map E index Habsent). reflexivity.
  - intros el Hin. apply list_elem_of_singleton in Hin. discriminate Hin.
Qed.

Lemma click_element_absent_index_raises_witness :
  result_of (click_element calm_linux 7) live_session
  = Raised (click_not_found 7)
  /\ calls_of (click_element calm_linux 7) live_session = [GetSelectorMap].
Proof.
  destruct (click_element_absent_index_raises calm_linux live_session 7 1
              eq_refl eq_refl) as (Hr & Hc & _).
  split; [exact Hr|exact Hc].
Defined.

(** ** The retry policy of [click_element] *)

Example click_retry_sample :
  click_element flaky_click 1 live_session
  = (Returned "🖱️ Clicked button with index 1: Sign in",
     {| browser := Some 0; browser_context := Some 1;
        live_connections := [0]; live_contexts := [1];
        next_handle := 2; pages := 1; clicks := 2;
        trace := [GetSelectorMap; GetDomElementByIndex 1; GetSession;
                  IsFileUploader button; ClickElementNode button; Sleep 1;
                  ClickElementNode button] |}).
Proof. reflexivity. Qed.

Lemma new_tab_test (p a b : nat) :
  (p <? p + a + b)%nat = (0 <? a + b)%nat.
Proof.
  destruct (Nat.ltb_spec p (p + a + b)), (Nat.ltb_spec 0 (a + b));
    reflexivity || lia.
Qed.

(** C6.  Take a session that is open, an index mapped to an element that
    is not a file uploader, and a first click that raises [e].  When [e]
    is of the "Element not found" / "Failed to click element" class, the
    handler waits one second and clicks exactly once more: a second
    attempt that goes through returns the normal confirmation, a second
    click that raises (or a failing switch to the new tab) is raised as the
    fatal "even after waiting" error.  When [e] is of any other class
    nothing is retried and the descriptive string is returned. *)
Theorem click_element_retry_policy (E : env) (s : state) (index : Z)
        (el : dom_element) (c : handle) (e : exn) :
  browser_context s = Some c ->
  selector_map E !! index = Some el ->
  file_uploader el = false ->
  click_result (click_attempts E (clicks s)) = Raised e ->
  let first := click_attempts E (clicks s) in
  let second := click_attempts E (S (clicks s)) in
  let new_tab := (0 <? opened_pages first + opened_pages second)%nat in
  let r := result_of (click_element E index) s in
  let calls := calls_of (click_element E index) s in
  if retryable e then
    count_events is_click calls = 2
    /\ count_events is_sleep calls = 1
    /\ (exists rest,
          calls = (before_click index el
                   ++ [ClickElementNode el; Sleep 1; ClickElementNode el]
                   ++ rest)%list)
    /\ match click_result second with
       | Returned download_path =>
           if new_tab && bool_decide (is_Some (switch_result second))
           then r = Raised (click_failed_after_waiting index e)
           else r = Returned (click_confirmation index el download_path new_tab)
       | Raised _ => r = Raised (click_failed_after_waiting index e)
       end
  else
    r = Returned (click_error_message index e)
    /\ count_events is_click calls = 1
    /\ count_events is_sleep calls = 0.
Proof.
  intros Hcx Hel Hfu Hfirst. cbv zeta.
  destruct s as [br cx conns ctxs nh pg ck tr]; cbn in Hcx, Hfirst |- *; subst cx.
  unfold click_element, get_dom_element_by_index, selector_map_item,
    context_call, click_once, click_confirmation, before_click.
  unfold_monad. read_trace.
  rewrite (present_in_selector_map E index el Hel), Hel. read_trace.
  rewrite Hfu. read_trace. rewrite Hfirst. read_trace.
  destruct (retryable e); read_trace.
  - destruct (click_result (click_attempts E (S ck))) as [dp|e2]; read_trace.
    + rewrite new_tab_test.
      destruct (opened_pages (click_attempts E ck)
                + opened_pages (click_attempts E (S ck)))%nat as [|n];
        cbn; read_trace.
      * repeat split; eauto.
      * destruct (switch_result (click_attempts E (S ck))) as [e3|]; read_trace;
          repeat split; eauto.
    + repeat split; eauto.
  - repeat split.
Qed.

Lemma click_element_retry_policy_witness :
  retryable (mk_exn OtherError "Failed to click element: <button>") = true
  /\ result_of (click_element flaky_click 1) live_session
     = Returned (click_confirmation 1 button None false)
  /\ count_events is_click (calls_of (click_element flaky_click 1) live_session) = 2
  /\ count_events is_sleep (calls_of (click_element flaky_click 1) live_session) = 1.
Proof.
  split; [reflexivity|].
  destruct (click_element_retry_policy
              flaky_click live_session 1 button 1
              (mk_exn OtherError "Failed to click element: <button>")
              eq_refl eq_refl eq_refl eq_refl)
    as (Hclicks & Hsleeps & _ & Hresult).
  split; [exact Hresult|]. split; [exact Hclicks|exact Hsleeps].
Defined.

(** ** [input_text] *)

Lemma prefix_app (t q : string) : String.prefix t (t +:+ q) = true.
Proof.
  induction t as [|a t IH]; simpl; [destruct q; reflexivity|].
  destruct (ascii_dec a a) as [_|Hne]; [exact IH|contradiction Hne; reflexivity].
Qed.

Lemma str_in_unfold (t s : string) :
  str_in t s = if String.prefix t s then true
               else match s with
                    | EmptyString => false
                    | String _ s' => str_in t s'
                    end.
Proof. destruct s; reflexivity. Qed.

Lemma str_in_here (t q : string) : str_in t (t +:+ q) = true.
Proof. rewrite str_in_unfold, prefix_app. reflexivity. Qed.

Lemma str_in_later (t : string) (a : ascii) (s : string) :
  str_in t s = true -> str_in t (String a s) = true.
Proof.
  intros H. rewrite str_in_unfold.
  destruct (String.prefix t (String a s)); [reflexivity|exact H].
Qed.

Lemma str_in_skip (p t s : string) :
  str_in t s = true -> str_in t (p +:+ s) = true.
Proof.
  intros H. induction p as [|a p IH].
  - exact H.
  - change (str_in t (String a (p +:+ s)) = true). apply str_in_later, IH.
Qed.

(** The text occurs in anything built around it. *)
Lemma str_in_middle (p t q : string) : str_in t (p +:+ t +:+ q) = true.
Proof. apply str_in_skip, str_in_here. Qed.

Example input_text_samples :
  result_of (input_text calm_linux 1 "hunter2" true) live_session
  = Returned "⌨️ Input sensitive data into index 1"
  /\ result_of (input_text calm_linux 1 "alice" false) live_session
     = Returned "⌨️ Input alice into index 1".
Proof. split; reflexivity. Qed.

(** Whenever [input_text] returns, it returns one of its two narrations. *)
Lemma input_text_returned (E : env) (s : state) index text sensitive msg :
  result_of (input_text E index text sensitive) s = Returned msg ->
  msg = if sensitive then sensitive_narration index
        else plain_narration index text.
Proof.
  destruct s as [br cx conns ctxs nh pg ck tr].
  unfold input_text, get_dom_element_by_index, selector_map_item, context_call,
    result_of, sensitive_narration, plain_narration.
  unfold_monad. cbn.
  destruct cx as [c|]; cbn; [|discriminate].
  destruct (in_selector_map E index); cbn; [|discriminate].
  destruct (selector_map E !! index) as [el|]; cbn; [|discriminate].
  destruct (input_text_element_node E el text); cbn; [discriminate|].
  destruct sensitive; cbn; intros [= <-]; reflexivity.
Qed.

(** With the session open, the index mapped and the write accepted,
    [input_text] returns. *)
Lemma input_text_returns (E : env) (s : state) index text sensitive c el :
  browser_context s = Some c ->
  selector_map E !! index = Some el ->
  input_text_element_node E el text = None ->
  exists msg, result_of (input_text E index text sensitive) s = Returned msg.
Proof.
  destruct s as [br cx conns ctxs nh pg ck tr]; cbn. intros -> Hel Hwrite.
  unfold input_text, get_dom_element_by_index, selector_map_item, context_call,
    result_of.
  unfold_monad. cbn.
  rewrite (present_in_selector_map E index el Hel), Hel. cbn.
  rewrite Hwrite. destruct sensitive; cbn; eauto.
Qed.

(** C7.  The narration returned with [has_sensitive_data = true] does not
    depend on the text: two runs on the same index return the same string
    whatever the two texts (and the surroundings) are.  The narration
    returned with [has_sensitive_data = false] contains the text.  And a
    narration is returned whenever the session is open, the index is mapped
    and the element accepts the text. *)
Theorem input_text_narration_hides_sensitive_text (index : Z) :
  (forall E1 s1 text1 E2 s2 text2 msg1 msg2,
      result_of (input_text E1 index text1 true) s1 = Returned msg1 ->
      result_of (input_text E2 index text2 true) s2 = Returned msg2 ->
      msg1 = msg2)
  /\ (forall E s text msg,
         result_of (input_text E index text false) s = Returned msg ->
         str_in text msg = true)
  /\ (forall E s text sensitive c el,
         browser_context s = Some c ->
         selector_map E !! index = Some el ->
         input_text_element_node E el text = None ->
         exists msg,
           result_of (input_text E index text sensitive) s = Returned msg).
Proof.
  split; [|split].
  - intros E1 s1 text1 E2 s2 text2 msg1 msg2 H1 H2.
    apply input_text_returned in H1, H2. congruence.
  - intros E s text msg H.
    apply input_text_returned in H. subst msg.
    unfold plain_narration. apply str_in_middle.
  - intros E s text sensitive c el. apply input_text_returns.
Qed.

Lemma input_text_narration_hides_sensitive_text_witness :
  exists msg1 msg2,
    result_of (input_text calm_linux 1 "hunter2" true) live_session = Returned msg1
    /\ result_of (input_text flaky_click 1 "correct horse" true) live_session
       = Returned msg2
    /\ msg1 = msg2
    /\ str_in "alice" "⌨️ Input alice into index 1" = true.
Proof.
  destruct (input_text_narration_hides_sensitive_text 1)
    as (Hsame & Hshown & Hreturns).
  destruct (Hreturns calm_linux live_session "hunter2" true 1 button
                     eq_refl eq_refl eq_refl) as [msg1 H1].
  destruct (Hreturns flaky_click live_session "correct horse" true 1 button
                     eq_refl eq_refl eq_refl) as [msg2 H2].
  exists msg1, msg2.
  split; [exact H1|]. split; [exact H2|].
  split; [exact (Hsame _ _ _ _ _ _ _ _ H1 H2)|].
  exact (Hshown calm_linux live_session "alice" _ eq_refl).
Defined.

(** ** Dropdowns *)

Example get_dropdown_options_sample :
  result_of (get_dropdown_options calm_linux 2) live_session
  = Returned ("0: text=" +:+ dquote +:+ "Red" +:+ dquote +:+ nl
              +:+ "1: text=" +:+ dquote +:+ "Dark \" +:+ dquote +:+ "green\"
              +:+ dquote +:+ dquote +:+ nl
              +:+ "Use the exact text string in select_dropdown_option").
Proof. reflexivity. Qed.

Example select_dropdown_option_sample :
  result_of (select_dropdown_option calm_linux 2 "Red") live_session
  = Returned "Selected option Red with value ['Red']"
  /\ result_of (select_dropdown_option calm_linux 1 "Red") live_session
     = Returned "Cannot select option: Element with index 1 is a button, not a select".
Proof. split; reflexivity. Qed.

Lemma trace_record_all evs (s : state) :
  trace (record_all evs s) = (trace s ++ evs)%list.
Proof.
  revert s. induction evs as [|ev evs IH]; intros s; cbn.
  - symmetry. apply app_nil_r.
  - unfold record_all in IH. rewrite IH. cbn. rewrite <- app_assoc. reflexivity.
Qed.




Example dropdown_absent_index_sample :
  get_dropdown_options calm_linux 7 live_session
  = (Raised (mk_exn KeyError "7"),
     record_event GetSelectorMap (record_event GetCurrentPage live_session)).
Proof. reflexivity. Qed.

Lemma dropdown_lookup_raises (E : env) (s : state) (index : Z) (c : handle)
      (after : dom_element -> M string) :
  browser_context s = Some c ->
  selector_map E !! index = None ->
  bind (context_call "get_current_page" GetCurrentPage)
       (fun _ => bind (context_call "get_selector_map" GetSelectorMap)
                      (fun _ => bind (selector_map_item E index) after)) s
  = (Raised (key_error index),
     record_event GetSelectorMap (record_event GetCurrentPage s)).
Proof.
  destruct s as [br cx conns ctxs nh pg ck tr]; cbn. intros -> Habsent.
  unfold selector_map_item, context_call. unfold_monad. cbn.
  rewrite Habsent. reflexivity.
Qed.

Lemma two_calls_recorded (s : state) ev1 ev2 :
  events_since s (record_event ev2 (record_event ev1 s)) = [ev1; ev2].
Proof.
  unfold events_since; cbn. rewrite <- app_assoc. apply events_since_app.
Qed.

(** C9.  With the session open, [get_dropdown_options] and
    [select_dropdown_option] on an index absent from the interactive-element
    map both end in the KeyError of the lookup [selector_map[index]], whose
    text is the bare key; only the page and the map were fetched, no frame
    was probed.  It is not the descriptive error that [click_element] and
    [input_text] raise for the same index. *)
Theorem dropdown_tools_raise_key_error (E : env) (s : state) (index : Z)
        (text : string) (c : handle) :
  browser_context s = Some c ->
  selector_map E !! index = None ->
  let failure := mk_exn KeyError (str_of_int index) in
  result_of (get_dropdown_options E index) s = Raised failure
  /\ calls_of (get_dropdown_options E index) s = [GetCurrentPage; GetSelectorMap]
  /\ count_events is_frame_probe (calls_of (get_dropdown_options E index) s) = 0
  /\ result_of (select_dropdown_option E index text) s = Raised failure
  /\ calls_of (select_dropdown_option E index text) s
     = [GetCurrentPage; GetSelectorMap]
  /\ count_events is_frame_probe
       (calls_of (select_dropdown_option E index text) s) = 0
  /\ failure <> click_not_found index
  /\ failure <> input_not_found index
  /\ result_of (click_element E index) s = Raised (click_not_found index)
  /\ result_of (input_text E index text false) s = Raised (input_not_found index).
Proof.
  intros Hcx Habsent. cbv zeta.
  unfold result_of, calls_of, state_after, get_dropdown_options,
    select_dropdown_option.
  rewrite !(dropdown_lookup_raises E s index c _ Hcx Habsent).
  cbn [fst snd]. rewrite two_calls_recorded.
  repeat split; try discriminate.
  - destruct s as [br cx conns ctxs nh pg ck tr]; cbn in Hcx; subst cx.
    unfold click_element, context_call. unfold_monad. cbn.
    rewrite (absent_not_in_selector_map E index Habsent). reflexivity.
  - destruct s as [br cx conns ctxs nh pg ck tr]; cbn in Hcx; subst cx.
    unfold input_text, context_call. unfold_monad. cbn.
    rewrite (absent_not_in_selector_map E index Habsent). reflexivity.
Qed.

Lemma dropdown_tools_raise_key_error_witness :
  result_of (get_dropdown_options calm_linux 7) live_session
  = Raised (mk_exn KeyError "7")
  /\ result_of (select_dropdown_option calm_linux 7 "Red") live_session
     = Raised (mk_exn KeyError "7").
Proof.
  destruct (dropdown_tools_raise_key_error calm_linux live_session 7 "Red" 1
              eq_refl eq_refl) as (Hget & _ & _ & Hselect & _).
  split; [exact Hget|exact Hselect].
Defined.

(** ** [search_google] *)

Example search_google_sample :
  search_google calm_linux "weather in Paris & Rome?" live_session
  = (Returned ("🔍 Searched for " +:+ dquote +:+ "weather in Paris & Rome?"
               +:+ dquote +:+ " in Google"),
     record_all
       [GetCurrentPage;
        PageGoto "https://www.google.com/search?q=weather in Paris & Rome?&udm=14";
        WaitForLoadState] live_session).
Proof. reflexivity. Qed.

(** C10.  With the session open, [search_google] asks the current page
    for exactly one navigation, to the prefix, the query as given and the
    suffix put end to end (nothing is encoded); whenever it returns, the
    confirmation contains the query as given; and it returns when the
    navigation and the wait for the load succeed. *)
Theorem search_google_navigates_verbatim (E : env) (s : state) (query : string)
        (c : handle) :
  browser_context s = Some c ->
  let url := "https://www.google.com/search?q=" +:+ query +:+ "&udm=14" in
  let r := result_of (search_google E query) s in
  let calls := calls_of (search_google E query) s in
  List.filter is_goto calls = [PageGoto url]
  /\ (exists rest, calls = GetCurrentPage :: PageGoto url :: rest)
  /\ (forall msg,
         r = Returned msg ->
         msg = "🔍 Searched for " +:+ dquote +:+ query +:+ dquote +:+ " in Google"
         /\ str_in query msg = true)
  /\ (page_goto E url = None -> wait_for_load_state E = None ->
      exists msg, r = Returned msg).
Proof.
  destruct s as [br cx conns ctxs nh pg ck tr]; cbn. intros ->.
  unfold search_google, search_url, context_call. unfold_monad.
  read_trace.
  destruct (page_goto E _) as [e|]; read_trace.
  - repeat split; eauto; discriminate.
  - destruct (wait_for_load_state E) as [e|]; read_trace.
    + repeat split; eauto; discriminate.
    + split; [reflexivity|]. split; [eauto|]. split; [|eauto].
      intros msg [= <-]. split; [reflexivity|].
      apply str_in_skip, str_in_middle.
Qed.

Lemma search_google_navigates_verbatim_witness :
  List.filter is_goto (calls_of (search_google calm_linux "a b&c") live_session)
  = [PageGoto "https://www.google.com/search?q=a b&c&udm=14"].
Proof.
  destruct (search_google_navigates_verbatim calm_linux live_session "a b&c" 1
              eq_refl) as (Hgoto & _).
  exact Hgoto.
Defined.

End ServerProps.

(* ===================================================================== *)
(** * Further properties of discovery, the session and the tools *)
(* ===================================================================== *)

Module MoreProps.
Import Py Host Server Policy Scenarios Pages Observations.
Import HostProps ServerProps.

(** ** Strings *)

Lemma to_lower_idempotent (c : ascii) : to_lower (to_lower c) = to_lower c.
Proof. destruct c as [[] [] [] [] [] [] [] []]; reflexivity. Qed.

Lemma lower_idempotent (s : string) : lower (lower s) = lower s.
Proof.
  induction s as [|c s IH]; cbn; [reflexivity|].
  rewrite to_lower_idempotent, IH. reflexivity.
Qed.

Lemma whitespace_to_lower (c : ascii) : is_whitespace (to_lower c) = is_whitespace c.
Proof. destruct c as [[] [] [] [] [] [] [] []]; reflexivity. Qed.

Lemma lstrip_lower (s : string) : lstrip (lower s) = lower (lstrip s).
Proof.
  induction s as [|c s IH]; cbn; [reflexivity|].
  rewrite whitespace_to_lower. destruct (is_whitespace c); [exact IH|reflexivity].
Qed.

Lemma rstrip_lower (s : string) : rstrip (lower s) = lower (rstrip s).
Proof.
  induction s as [|c s IH]; cbn; [reflexivity|].
  rewrite IH, whitespace_to_lower.
  destruct (rstrip s); cbn; [destruct (is_whitespace c)|]; reflexivity.
Qed.

Lemma strip_lower (s : string) : strip (lower s) = lower (strip s).
Proof. unfold strip. rewrite lstrip_lower, rstrip_lower. reflexivity. Qed.

(** ** Discovery *)

Lemma system_of_lowercased (h : host) : system_of (lowercased h) = system_of h.
Proof. unfold system_of; cbn. apply lower_idempotent. Qed.

Lemma probe_darwin_lowercased (h : host) :
  probe_darwin (lowercased h) = probe_darwin h.
Proof.
  unfold probe_darwin; cbn.
  destruct (defaults_read h) as [r|e]; cbn; [|reflexivity].
  rewrite lower_idempotent. reflexivity.
Qed.

Lemma probe_windows_lowercased (h : host) :
  probe_windows (lowercased h) = probe_windows h.
Proof.
  unfold probe_windows, probe_windows_body, first_existing, brave_paths; cbn.
  destruct (winreg_progid h) as [[s|]|e]; cbn; try reflexivity.
  rewrite lower_idempotent. reflexivity.
Qed.

Lemma probe_linux_lowercased (h : host) :
  probe_linux (lowercased h) = probe_linux h.
Proof.
  unfold probe_linux, probe_linux_body; cbn -[strip lower str_in].
  destruct (xdg_settings h) as [r|e]; cbn -[strip lower str_in]; [|reflexivity].
  rewrite strip_lower, lower_idempotent. reflexivity.
Qed.

(** X1.  Detection does not depend on letter case: spelling the name of
    the operating system and the answers of the probes in lower case
    changes nothing in what [detect_default_browser] returns. *)
Theorem detect_default_browser_ignores_case (h : host) :
  detect_default_browser (lowercased h) = detect_default_browser h.
Proof.
  unfold detect_default_browser.
  rewrite system_of_lowercased, probe_darwin_lowercased,
    probe_windows_lowercased, probe_linux_lowercased.
  reflexivity.
Qed.

Example detect_upper_case_answer :
  detect_default_browser (with_xdg 0 "BRAVE-Browser.Desktop" (bare_host "LINUX"))
  = Returned ("brave", Some linux_brave).
Proof. reflexivity. Qed.

Lemma prefix_split (t s : string) :
  String.prefix t s = true -> exists q, s = t +:+ q.
Proof.
  revert s. induction t as [|a t IH]; intros s H.
  - exists s. reflexivity.
  - destruct s as [|b s]; [discriminate H|].
    simpl in H. destruct (ascii_dec a b) as [->|_]; [|discriminate H].
    destruct (IH s H) as [q ->]. exists q. reflexivity.
Qed.

(** [sub in s] holds exactly when [s] is built around [sub]. *)
Lemma str_in_split (t s : string) :
  str_in t s = true -> exists p q, s = p +:+ t +:+ q.
Proof.
  induction s as [|c s IH]; rewrite str_in_unfold.
  - destruct (String.prefix t "") eqn:Hp; [|discriminate].
    destruct (prefix_split _ _ Hp) as [q Hq]. intros _. exists "", q. exact Hq.
  - destruct (String.prefix t (String c s)) eqn:Hp.
    + destruct (prefix_split _ _ Hp) as [q Hq]. intros _. exists "", q. exact Hq.
    + intros H. destruct (IH H) as (p & q & ->).
      exists (String c p), q. reflexivity.
Qed.

Lemma append_assoc (a b c : string) : (a +:+ b) +:+ c = a +:+ b +:+ c.
Proof.
  induction a as [|x a IH]; [reflexivity|].
  change (String x ((a +:+ b) +:+ c) = String x (a +:+ b +:+ c)).
  rewrite IH. reflexivity.
Qed.

(** A string that contains [a ++ t] contains [t]. *)
Lemma str_in_suffix_of_needle (a t s : string) :
  str_in (a +:+ t) s = true -> str_in t s = true.
Proof.
  intros H. destruct (str_in_split _ _ H) as (p & q & ->).
  rewrite append_assoc. apply str_in_skip, str_in_skip, str_in_here.
Qed.

Example chromium_is_not_chrome :
  detect_default_browser (with_xdg 0 "chromium-browser.desktop" (bare_host "Linux"))
  = Returned ("chrome", Some linux_chromium).
Proof. reflexivity. Qed.

(** X2.  On Linux, when [xdg-settings] reports status 0, the answer is
    decided by three substring tests on the lower-cased, stripped output,
    in this order: "brave", "chrome", "chromium".  The further test for
    "google-chrome" never changes the outcome, and output naming none of
    the three gives the fallback. *)
Theorem linux_detection_by_three_tests (h : host) (r : completed) :
  system_of h = "linux" ->
  xdg_settings h = Returned r ->
  returncode r = 0%Z ->
  let default_browser := lower (strip (stdout r)) in
  detect_default_browser h
  = Returned (if str_in "brave" default_browser then
                ("brave", Some linux_brave)
              else if str_in "chrome" default_browser then
                ("chrome", Some linux_chrome)
              else if str_in "chromium" default_browser then
                ("chrome", Some linux_chromium)
              else ("chrome", None)).
Proof.
  intros Hsys Hxdg Hstatus. cbv zeta.
  unfold detect_default_browser, probe_linux, probe_linux_body.
  rewrite Hsys, Hxdg. cbn -[strip lower str_in]. rewrite Hstatus.
  cbn -[strip lower str_in].
  destruct (str_in "brave" (lower (strip (stdout r)))); [reflexivity|].
  destruct (str_in "chrome" (lower (strip (stdout r)))) eqn:Hchrome;
    [reflexivity|].
  destruct (str_in "google-chrome" (lower (strip (stdout r)))) eqn:Hgoogle.
  - apply (str_in_suffix_of_needle "google-" "chrome") in Hgoogle. congruence.
  - cbn -[strip lower str_in].
    destruct (str_in "chromium" (lower (strip (stdout r)))); reflexivity.
Qed.

Lemma linux_detection_by_three_tests_witness :
  detect_default_browser
    (with_xdg 0 ("Google-Chrome.desktop" +:+ nl) (bare_host "Linux"))
  = Returned ("chrome", Some linux_chrome).
Proof.
  exact (linux_detection_by_three_tests
           (with_xdg 0 ("Google-Chrome.desktop" +:+ nl) (bare_host "Linux"))
           (Completed 0 ("Google-Chrome.desktop" +:+ nl))
           eq_refl eq_refl eq_refl).
Defined.

(** ** The session *)

Lemma detect_unrecognized_os (h : host) :
  recognized_os h = false -> detect_default_browser h = Returned ("chrome", None).
Proof.
  unfold recognized_os, detect_default_browser.
  destruct (system_of h =? "darwin"); [discriminate|].
  destruct (system_of h =? "windows"); [discriminate|].
  destruct (system_of h =? "linux"); [discriminate|]. reflexivity.
Qed.

Lemma platform_default_path_unsupported (E : env) kind :
  recognized_os (the_host E) = false ->
  platform_default_path E kind
  = Raised (unsupported_os (system_of (the_host E))).
Proof.
  unfold recognized_os, platform_default_path, system_of.
  destruct (lower (platform_system (the_host E)) =? "darwin"); [discriminate|].
  destruct (lower (platform_system (the_host E)) =? "windows"); [discriminate|].
  destruct (lower (platform_system (the_host E)) =? "linux"); [discriminate|].
  intros _. destruct (lower kind =? "brave"); reflexivity.
Qed.

Lemma platform_default_path_supported (E : env) kind :
  recognized_os (the_host E) = true ->
  exists path, platform_default_path E kind = Returned path.
Proof.
  unfold recognized_os, platform_default_path, system_of.
  intros Hos.
  destruct (lower kind =? "brave"),
    (lower (platform_system (the_host E)) =? "darwin"),
    (lower (platform_system (the_host E)) =? "windows"),
    (lower (platform_system (the_host E)) =? "linux");
    try discriminate Hos; eauto;
    destruct (truthy_opt_str _); eauto.
Qed.

Lemma open_session_unsupported (E : env) headless task (s : state) :
  recognized_os (the_host E) = false ->
  open_session E headless task s
  = (Raised (unsupported_os (system_of (the_host E))), s).
Proof.
  intros Hos. unfold open_session. unfold_monad.
  rewrite (detect_unrecognized_os _ Hos). cbn.
  rewrite (platform_default_path_unsupported E _ Hos). reflexivity.
Qed.

Lemma open_session_supported (E : env) headless task (s : state) :
  recognized_os (the_host E) = true ->
  exists msg path,
    open_session E headless task s = (Returned msg, opened headless path s).
Proof.
  intros Hos. unfold open_session.
  destruct (detect_default_browser_returns (the_host E)) as [[kind path] Hdet].
  unfold_monad. rewrite Hdet.
  destruct s as [br cx conns ctxs nh pg ck tr]; cbn.
  destruct path as [[|a p]|]; cbn;
    try (do 2 eexists; reflexivity);
    (destruct (platform_default_path_supported E kind Hos) as [chrome_path ->];
     do 2 eexists; reflexivity).
Qed.

Lemma close_browser_nothing_held (E : env) (s : state) :
  browser s = None -> browser_context s = None ->
  close_browser E s = (Returned "Browser closed successfully", s).
Proof.
  destruct s as [br cx conns ctxs nh pg ck tr]; cbn. intros -> ->. reflexivity.
Qed.

(** X3.  [close_browser] is idempotent: from a state in which the live
    objects are the ones the globals hold, once a call has returned, a
    further call makes no library call, returns the same success message
    and leaves the state as it is. *)
Theorem close_browser_twice_is_close_once (E : env) (s : state) :
  session_ok s ->
  is_raised (result_of (close_browser E) s) = false ->
  let s1 := state_after (close_browser E) s in
  close_browser E s1 = (Returned "Browser closed successfully", s1)
  /\ calls_of (close_browser E) s1 = []
  /\ live_connections s1 = [] /\ live_contexts s1 = [].
Proof.
  intros Hok Hret. cbv zeta. unfold result_of, calls_of, state_after in *.
  destruct (close_browser_session E s Hok) as (calls & _ & _ & Hok1 & Hdone).
  destruct (Hdone Hret) as (Hb & Hc & _).
  rewrite (close_browser_nothing_held E _ Hb Hc). cbn [snd].
  split; [reflexivity|]. split; [apply events_since_nil|].
  destruct Hok1 as (Hconn & Hctx & _). rewrite Hconn, Hctx, Hb, Hc.
  split; reflexivity.
Qed.

Lemma close_browser_twice_is_close_once_witness :
  close_browser calm_linux (state_after (close_browser calm_linux) live_session)
  = (Returned "Browser closed successfully",
     state_after (close_browser calm_linux) live_session).
Proof.
  assert (Hok : session_ok live_session)
    by (split; [reflexivity|split; [reflexivity|discriminate]]).
  exact (proj1 (close_browser_twice_is_close_once
                  calm_linux live_session Hok eq_refl)).
Defined.

(** X4.  With no connection held, [initialize_browser] returns exactly on
    the hosts of the three operating-system families.  On any other host
    it raises "Unsupported operating system: " followed by the lower-cased
    system name, having made no library call and changed nothing. *)
Theorem initialize_browser_needs_supported_os (E : env) headless task (s : state) :
  browser s = None ->
  (recognized_os (the_host E) = true ->
   exists msg, result_of (initialize_browser E headless task) s = Returned msg)
  /\ (recognized_os (the_host E) = false ->
      initialize_browser E headless task s
      = (Raised (mk_exn Exception
                        ("Unsupported operating system: "
                         +:+ lower (platform_system (the_host E)))), s)).
Proof.
  intros Hbr. unfold result_of.
  rewrite initialize_browser_unfold, Hbr. split; intros Hos.
  - destruct (open_session_supported E headless task s Hos) as (msg & path & ->).
    eauto.
  - apply open_session_unsupported, Hos.
Qed.

Lemma initialize_browser_needs_supported_os_witness :
  (exists msg,
      result_of (initialize_browser calm_linux false "t") initial_state
      = Returned msg)
  /\ result_of (initialize_browser (calm freebsd) false "t") initial_state
     = Raised (mk_exn Exception "Unsupported operating system: freebsd").
Proof.
  split.
  - exact (proj1 (initialize_browser_needs_supported_os
                    calm_linux false "t" initial_state eq_refl) eq_refl).
  - exact (f_equal fst
             (proj2 (initialize_browser_needs_supported_os
                       (calm freebsd) false "t" initial_state eq_refl) eq_refl)).
Defined.



Lemma platform_default_path_nonempty (E : env) kind path :
  expanduser (the_host E) win_brave_user <> "" ->
  platform_default_path E kind = Returned path -> path <> "".
Proof.
  unfold platform_default_path. intros Hhome.
  destruct (lower kind =? "brave"),
    (lower (platform_system (the_host E)) =? "darwin"),
    (lower (platform_system (the_host E)) =? "windows"),
    (lower (platform_system (the_host E)) =? "linux");
    try (intros [= <-]; discriminate); try discriminate.
  all: destruct (first_existing _ _) as [[|a p]|]; cbn;
    intros [= <-]; solve [discriminate | exact Hhome].
Qed.

(** When [open_session] constructs the connection, it does so with a
    non-empty path (given that the home directory expands to one). *)
Lemma open_session_path (E : env) headless task (s : state) :
  expanduser (the_host E) win_brave_user <> "" ->
  (exists e, open_session E headless task s = (Raised e, s))
  \/ (exists msg path,
        open_session E headless task s = (Returned msg, opened headless path s)
        /\ path <> "").
Proof.
  intros Hhome. unfold open_session.
  destruct (detect_default_browser_returns (the_host E)) as [[kind path] Hdet].
  unfold_monad. rewrite Hdet.
  destruct s as [br cx conns ctxs nh pg ck tr]; cbn.
  destruct path as [[|a p]|]; cbn;
    try (right; do 2 eexists; split; [reflexivity|discriminate]);
    (destruct (platform_default_path E kind) as [chrome_path|e] eqn:Hpath;
     [right; do 2 eexists; split;
      [reflexivity|exact (platform_default_path_nonempty E kind _ Hhome Hpath)]
     | left; eexists; reflexivity]).
Qed.

(** [close_browser] constructs nothing, whatever the state. *)
Lemma close_browser_calls (E : env) (s : state) :
  exists calls,
    trace (snd (close_browser E s)) = (trace s ++ calls)%list
    /\ Forall (fun ev => is_construction ev = false) calls.
Proof.
  destruct s as [br cx conns ctxs nh pg ck tr].
  unfold close_browser, release_context, release_browser. unfold_monad.
  destruct cx as [c|], br as [b|]; cbn.
  - destruct (context_close E c) as [e|]; cbn.
    + exists [ContextClose c]. split; [reflexivity|repeat constructor].
    + destruct (browser_close E b) as [e|]; cbn;
        exists [ContextClose c; BrowserClose b]; rewrite <- app_assoc;
        (split; [reflexivity|repeat constructor]).
  - destruct (context_close E c) as [e|]; cbn;
      exists [ContextClose c]; (split; [reflexivity|repeat constructor]).
  - destruct (browser_close E b) as [e|]; cbn;
      exists [BrowserClose b]; (split; [reflexivity|repeat constructor]).
  - exists []. rewrite app_nil_r. split; [reflexivity|constructor].
Qed.

(** X6.  Every connection [initialize_browser] constructs is given a
    non-empty executable path and the [headless] flag of the call (the
    home directory being assumed to expand to a non-empty path). *)
Theorem initialize_browser_connection_arguments (E : env) headless task
        (s : state) (b : handle) (headless' : bool) (path : string) :
  expanduser (the_host E) win_brave_user <> "" ->
  BrowserNew b headless' path ∈ calls_of (initialize_browser E headless task) s ->
  path <> "" /\ headless' = headless.
Proof.
  intros Hhome. unfold calls_of, state_after, events_since.
  rewrite initialize_browser_unfold.
  assert (Hopen : forall s1 calls,
             trace s1 = (trace s ++ calls)%list ->
             Forall (fun ev => is_construction ev = false) calls ->
             BrowserNew b headless' path
               ∈ drop (length (trace s))
                      (trace (snd (open_session E headless task s1))) ->
             path <> "" /\ headless' = headless).
  { intros s1 calls Htr Hall.
    destruct (open_session_path E headless task s1 Hhome)
      as [[e ->] | (msg & p & -> & Hp)]; cbn [snd].
    - rewrite Htr, events_since_app. intros Hin.
      rewrite Forall_forall in Hall. specialize (Hall _ Hin). discriminate Hall.
    - unfold opened; cbn [trace]. rewrite Htr, <- !app_assoc, events_since_app.
      intros Hin. apply elem_of_app in Hin as [Hin|Hin].
      + rewrite Forall_forall in Hall. specialize (Hall _ Hin).
        discriminate Hall.
      + cbn in Hin. apply elem_of_cons in Hin as [Heq|Hin].
        * injection Heq as -> -> ->. split; [exact Hp|reflexivity].
        * apply list_elem_of_singleton in Hin. discriminate Hin. }
  destruct (browser s) as [held|].
  - destruct (close_browser_calls E s) as (calls & Htr & Hall).
    destruct (close_browser E s) as [[msg|e] s1]; cbn [snd] in *.
    + apply (Hopen s1 calls Htr Hall).
    + rewrite Htr, events_since_app. intros Hin.
      rewrite Forall_forall in Hall. specialize (Hall _ Hin). discriminate Hall.
  - apply (Hopen s []); [symmetry; apply app_nil_r|constructor].
Qed.

Lemma initialize_browser_connection_arguments_witness :
  calls_of (initialize_browser calm_linux true "t") live_session
  = [ContextClose 1; BrowserClose 0; BrowserNew 2 true linux_brave; ContextNew 3 2]
  /\ linux_brave <> "" /\ true = true.
Proof.
  split; [reflexivity|].
  apply (initialize_browser_connection_arguments
           calm_linux true "t" live_session 2 true linux_brave).
  - discriminate.
  - vm_compute. do 2 right. left.
Defined.

(** ** [click_element] beyond the retry *)

Ltac open_click :=
  unfold click_element, get_dom_element_by_index, selector_map_item,
    context_call, click_once, click_confirmation, before_click;
  unfold_monad.

Ltac split_click :=
  repeat first
    [ progress read_trace
    | match goal with
      | |- context [in_selector_map ?E ?i] => destruct (in_selector_map E i)
      | |- context [selector_map ?E !! ?i] => destruct (selector_map E !! i)
      | |- context [file_uploader ?el] => destruct (file_uploader el)
      | |- context [click_result ?a] => destruct (click_result a) as [?|?]
      | |- context [Nat.ltb ?a ?b] => destruct (Nat.ltb a b)
      | |- context [switch_result ?a] => destruct (switch_result a) as [?|]
      | |- context [retryable ?e] => destruct (retryable e)
      end ].

(** X7.  In every run [click_element] clicks at most twice and sleeps at
    most once, and it sleeps exactly when it clicks a second time. *)
Theorem click_element_clicks_at_most_twice (E : env) (s : state) (index : Z) :
  let calls := calls_of (click_element E index) s in
  (count_events is_click calls = 0 /\ count_events is_sleep calls = 0)
  \/ (count_events is_click calls = 1 /\ count_events is_sleep calls = 0)
  \/ (count_events is_click calls = 2 /\ count_events is_sleep calls = 1).
Proof.
  cbv zeta. destruct s as [br cx conns ctxs nh pg ck tr].
  open_click. unfold count_events.
  destruct cx as [c|]; split_click; auto.
Qed.

Lemma grew_test (p a : nat) : (p <? p + a)%nat = (0 <? a)%nat.
Proof.
  destruct (Nat.ltb_spec p (p + a)), (Nat.ltb_spec 0 a); reflexivity || lia.
Qed.

Example click_file_uploader_sample :
  result_of (click_element form_page 5) live_session
  = Returned "Index 5 - has an element which opens file upload dialog. Use a dedicated function for file uploads".
Proof. reflexivity. Qed.

Example click_popup_sample :
  result_of (click_element popup_page 1) live_session
  = Returned "🖱️ Clicked button with index 1: Sign in - New tab opened - switching to it"
  /\ calls_of (click_element popup_page 1) live_session
     = [GetSelectorMap; GetDomElementByIndex 1; GetSession; IsFileUploader button;
        ClickElementNode button; SwitchToTab (-1)].
Proof. split; reflexivity. Qed.

(** X8.  On an element that opens a file-upload dialog [click_element]
    returns the guidance string and does not click: the calls stop at the
    file-uploader check. *)
Theorem click_element_refuses_file_uploader (E : env) (s : state) (index : Z)
        (el : dom_element) (c : handle) :
  browser_context s = Some c ->
  selector_map E !! index = Some el ->
  file_uploader el = true ->
  result_of (click_element E index) s
  = Returned ("Index " +:+ str_of_int index
              +:+ " - has an element which opens file upload dialog. Use a dedicated function for file uploads")
  /\ calls_of (click_element E index) s = before_click index el
  /\ state_after (click_element E index) s
     = record_all (before_click index el) s.
Proof.
  intros Hcx Hel Hfu.
  destruct s as [br cx conns ctxs nh pg ck tr]; cbn in Hcx; subst cx.
  open_click. read_trace.
  rewrite (present_in_selector_map E index el Hel), Hel. read_trace.
  rewrite Hfu. read_trace. repeat split.
Qed.

Lemma click_element_refuses_file_uploader_witness :
  calls_of (click_element form_page 5) live_session = before_click 5 upload_input.
Proof.
  exact (proj1 (proj2 (click_element_refuses_file_uploader
                         form_page live_session 5 upload_input 1
                         eq_refl eq_refl eq_refl))).
Defined.

(** X9.  When the first click goes through, the element is clicked once
    and never again.  If the click added no page, the confirmation is
    returned as it is; if it added pages, the handler switches to the
    newest tab ([switch_to_tab(-1)]) and, that switch succeeding, says so
    in the confirmation. *)
Theorem click_element_first_click_through (E : env) (s : state) (index : Z)
        (el : dom_element) (c : handle) (download_path : option string) :
  browser_context s = Some c ->
  selector_map E !! index = Some el ->
  file_uploader el = false ->
  click_result (click_attempts E (clicks s)) = Returned download_path ->
  let first := click_attempts E (clicks s) in
  let r := result_of (click_element E index) s in
  let calls := calls_of (click_element E index) s in
  match opened_pages first with
  | 0 =>
      r = Returned (click_confirmation index el download_path false)
      /\ calls = (before_click index el ++ [ClickElementNode el])%list
  | S _ =>
      switch_result first = None ->
      r = Returned (click_confirmation index el download_path true)
      /\ calls = (before_click index el
                  ++ [ClickElementNode el; SwitchToTab (-1)])%list
  end.
Proof.
  intros Hcx Hel Hfu Hfirst. cbv zeta.
  destruct s as [br cx conns ctxs nh pg ck tr]; cbn in Hcx, Hfirst |- *; subst cx.
  open_click. read_trace.
  rewrite (present_in_selector_map E index el Hel), Hel. read_trace.
  rewrite Hfu. read_trace. rewrite Hfirst. read_trace. rewrite grew_test.
  destruct (opened_pages (click_attempts E ck)) as [|n]; cbn; read_trace.
  - split; reflexivity.
  - intros ->. read_trace. split; reflexivity.
Qed.

Lemma click_element_first_click_through_witness :
  result_of (click_element popup_page 1) live_session
  = Returned (click_confirmation 1 button None true)
  /\ calls_of (click_element popup_page 1) live_session
     = (before_click 1 button ++ [ClickElementNode button; SwitchToTab (-1)])%list.
Proof.
  exact (click_element_first_click_through
           popup_page live_session 1 button 1 None
           eq_refl eq_refl eq_refl eq_refl eq_refl).
Defined.

(** X10.  A click that went through can still be reported as failed, or
    be repeated: when the click added a page and the switch to the new tab
    raises [e], the handler treats [e] like an error of the click.  If [e]
    is not of the retried class the reply is the "Error clicking element"
    string; if it is, the element is clicked a second time after the
    delay. *)
Theorem click_element_failed_tab_switch (E : env) (s : state) (index : Z)
        (el : dom_element) (c : handle) (download_path : option string)
        (e : exn) :
  browser_context s = Some c ->
  selector_map E !! index = Some el ->
  file_uploader el = false ->
  click_result (click_attempts E (clicks s)) = Returned download_path ->
  (0 < opened_pages (click_attempts E (clicks s)))%nat ->
  switch_result (click_attempts E (clicks s)) = Some e ->
  let r := result_of (click_element E index) s in
  let calls := calls_of (click_element E index) s in
  if retryable e then
    exists rest,
      calls = (before_click index el
               ++ [ClickElementNode el; SwitchToTab (-1); Sleep 1;
                   ClickElementNode el] ++ rest)%list
  else
    r = Returned (click_error_message index e)
    /\ calls = (before_click index el
                ++ [ClickElementNode el; SwitchToTab (-1)])%list.
Proof.
  intros Hcx Hel Hfu Hfirst Hgrew Hswitch. cbv zeta.
  destruct s as [br cx conns ctxs nh pg ck tr];
    cbn in Hcx, Hfirst, Hgrew, Hswitch |- *; subst cx.
  open_click. read_trace.
  rewrite (present_in_selector_map E index el Hel), Hel. read_trace.
  rewrite Hfu. read_trace. rewrite Hfirst. read_trace. rewrite grew_test.
  destruct (opened_pages (click_attempts E ck)) as [|n]; [lia|].
  change (0 <? S n)%nat with true. read_trace. rewrite Hswitch. read_trace.
  destruct (retryable e); read_trace.
  - split_click; eauto.
  - split; reflexivity.
Qed.

Lemma click_element_failed_tab_switch_witness :
  result_of (click_element (lost_popup_page "Target page closed") 1) live_session
  = Returned (click_error_message 1 (mk_exn OtherError "Target page closed"))
  /\ exists rest,
       calls_of (click_element (lost_popup_page "Element not found in tab") 1)
                live_session
       = (before_click 1 button
          ++ [ClickElementNode button; SwitchToTab (-1); Sleep 1;
              ClickElementNode button] ++ rest)%list.
Proof.
  split.
  - exact (proj1 (click_element_failed_tab_switch
                    (lost_popup_page "Target page closed") live_session 1 button 1
                    None (mk_exn OtherError "Target page closed")
                    eq_refl eq_refl eq_refl eq_refl (Nat.lt_0_succ 0) eq_refl)).
  - exact (click_element_failed_tab_switch
             (lost_popup_page "Element not found in tab") live_session 1
             button 1 None (mk_exn OtherError "Element not found in tab")
             eq_refl eq_refl eq_refl eq_refl (Nat.lt_0_succ 0) eq_refl).
Defined.

(** ** [input_text] beyond the narration *)

Ltac open_input :=
  unfold input_text, get_dom_element_by_index, selector_map_item, context_call;
  unfold_monad.

Ltac split_input :=
  repeat first
    [ progress read_trace
    | match goal with
      | |- context [in_selector_map ?E ?i] => destruct (in_selector_map E i)
      | |- context [selector_map ?E !! ?i] => destruct (selector_map E !! i)
      | |- context [input_text_element_node ?E ?el ?t] =>
          destruct (input_text_element_node E el t)
      end ].

(** X11.  The flag [has_sensitive_data] changes the narration and nothing
    else: with either value the same calls reach the library, the same
    text is written, the final state is the same, and the call raises in
    the same cases with the same exception. *)
Theorem input_text_flag_only_changes_narration (E : env) (s : state)
        (index : Z) (text : string) :
  state_after (input_text E index text true) s
  = state_after (input_text E index text false) s
  /\ calls_of (input_text E index text true) s
     = calls_of (input_text E index text false) s
  /\ (forall e, result_of (input_text E index text true) s = Raised e
                <-> result_of (input_text E index text false) s = Raised e).
Proof.
  destruct s as [br cx conns ctxs nh pg ck tr].
  open_input. destruct cx as [c|]; split_input;
    repeat split; try reflexivity; try discriminate; auto.
Qed.

(** X12.  [input_text] on an index absent from the interactive-element
    map raises its not-found error after fetching the map only: nothing is
    written to any element. *)
Theorem input_text_absent_index_writes_nothing (E : env) (s : state)
        (index : Z) (text : string) (sensitive : bool) (c : handle) :
  browser_context s = Some c ->
  selector_map E !! index = None ->
  input_text E index text sensitive s
  = (Raised (mk_exn Exception
               ("Element index " +:+ str_of_int index
                +:+ " does not exist - retry or use alternative actions")),
     record_event GetSelectorMap s)
  /\ calls_of (input_text E index text sensitive) s = [GetSelectorMap].
Proof.
  intros Hcx Habsent.
  destruct s as [br cx conns ctxs nh pg ck tr]; cbn in Hcx; subst cx.
  open_input. read_trace.
  rewrite (absent_not_in_selector_map E index Habsent). read_trace.
  split; reflexivity.
Qed.

Lemma input_text_absent_index_writes_nothing_witness :
  calls_of (input_text form_page 9 "alice" false) live_session = [GetSelectorMap].
Proof.
  exact (proj2 (input_text_absent_index_writes_nothing
                  form_page live_session 9 "alice" false 1 eq_refl eq_refl)).
Defined.

(** X13.  On a mapped index [input_text] writes the text exactly once, as
    given, into the element the map holds for the index; when that write
    raises, the exception reaches the caller unchanged and no narration is
    returned. *)
Theorem input_text_writes_once_and_propagates (E : env) (s : state)
        (index : Z) (text : string) (sensitive : bool) (c : handle)
        (el : dom_element) :
  browser_context s = Some c ->
  selector_map E !! index = Some el ->
  calls_of (input_text E index text sensitive) s
  = [GetSelectorMap; GetDomElementByIndex index; InputTextElementNode el text]
  /\ (forall e, input_text_element_node E el text = Some e ->
                result_of (input_text E index text sensitive) s = Raised e).
Proof.
  intros Hcx Hel.
  destruct s as [br cx conns ctxs nh pg ck tr]; cbn in Hcx; subst cx.
  open_input. read_trace.
  rewrite (present_in_selector_map E index el Hel), Hel. read_trace.
  destruct (input_text_element_node E el text) as [e0|]; read_trace.
  - split; [reflexivity|]. intros e [= <-]. reflexivity.
  - destruct sensitive; read_trace; (split; [reflexivity|discriminate]).
Qed.

Lemma input_text_writes_once_and_propagates_witness :
  calls_of (input_text read_only_page 1 "alice" true) live_session
  = [GetSelectorMap; GetDomElementByIndex 1; InputTextElementNode button "alice"]
  /\ result_of (input_text read_only_page 1 "alice" true) live_session
     = Raised detached.
Proof.
  destruct (input_text_writes_once_and_propagates
              read_only_page live_session 1 "alice" true 1 button
              eq_refl eq_refl) as (Hcalls & Hraise).
  split; [exact Hcalls|exact (Hraise detached eq_refl)].
Defined.

(** ** [select_dropdown_option] *)

Lemma record_all_app evs1 evs2 (s : state) :
  record_all (evs1 ++ evs2) s = record_all evs2 (record_all evs1 s).
Proof. unfold record_all. apply fold_left_app. Qed.

Lemma select_in_frame_none (E : env) xp text n (f : frame) (s : state) :
  frame_selects text f = None ->
  select_in_frame E xp text n f s
  = (Returned None, record_all (select_probes xp text n f) s).
Proof.
  unfold frame_selects, select_in_frame, select_probes. unfold_monad.
  destruct (eval_find_dropdown f) as [[[|]|]|e]; cbn; try reflexivity.
  destruct (select_by_label f text); [discriminate|reflexivity].
Qed.

Lemma select_in_frame_some (E : env) xp text n (f : frame) (s : state) values :
  frame_selects text f = Some values ->
  select_in_frame E xp text n f s
  = (Returned (Some ("Selected option " +:+ text +:+ " with value "
                     +:+ str_of_values E values)),
     record_all (select_probes xp text n f) s).
Proof.
  unfold frame_selects, select_in_frame, select_probes. unfold_monad.
  destruct (eval_find_dropdown f) as [[[|]|]|e]; cbn; try discriminate.
  destruct (select_by_label f text); [|discriminate].
  intros [= <-]. reflexivity.
Qed.

Lemma select_in_frames_none (E : env) xp text (fs : list frame) :
  Forall (fun f => frame_selects text f = None) fs ->
  forall n (s : state),
    select_in_frames E xp text n fs s
    = (Returned None, record_all (select_probes_from xp text n fs) s).
Proof.
  induction 1 as [|f rest Hf Hrest IH]; intros n s; [reflexivity|].
  cbn [select_in_frames select_probes_from]. unfold bind.
  rewrite (select_in_frame_none E xp text n f s Hf), IH, record_all_app.
  reflexivity.
Qed.

Lemma select_in_frames_first (E : env) xp text (before : list frame) f after values :
  Forall (fun g => frame_selects text g = None) before ->
  frame_selects text f = Some values ->
  forall n (s : state),
    select_in_frames E xp text n (before ++ f :: after) s
    = (Returned (Some ("Selected option " +:+ text +:+ " with value "
                       +:+ str_of_values E values)),
       record_all (select_probes_from xp text n before
                   ++ select_probes xp text (n + length before) f) s).
Proof.
  intros Hbefore Hf.
  induction Hbefore as [|g rest Hg Hrest IH]; intros n s.
  - cbn [app select_in_frames select_probes_from length]. unfold bind, ret.
    rewrite (select_in_frame_some E xp text n f s values Hf), Nat.add_0_r.
    reflexivity.
  - cbn [app select_in_frames select_probes_from length]. unfold bind.
    rewrite (select_in_frame_none E xp text n g s Hg), IH.
    rewrite <- app_assoc, !record_all_app, Nat.add_succ_comm. reflexivity.
Qed.

Lemma select_dropdown_option_on_select (E : env) (s : state) index text
      (c : handle) (el : dom_element) :
  browser_context s = Some c ->
  selector_map E !! index = Some el ->
  tag_name el = "select" ->
  select_dropdown_option E index text s
  = match select_in_frames E (xpath el) text 0 (frames E)
            (record_event GetSelectorMap (record_event GetCurrentPage s)) with
    | (Returned (Some msg), s') => (Returned msg, s')
    | (Returned None, s') =>
        (Returned ("Could not select option '" +:+ text +:+ "' in any frame"), s')
    | (Raised e, s') => (Raised e, s')
    end.
Proof.
  intros Hcx Hel Htag.
  destruct s as [br cx conns ctxs nh pg ck tr]; cbn in Hcx; subst cx.
  unfold select_dropdown_option, selector_map_item, context_call.
  unfold_monad. cbn. rewrite Hel. cbn. rewrite Htag. cbn.
  destruct (select_in_frames _ _ _ _ _ _) as [[[msg|]|e] s']; reflexivity.
Qed.

Lemma calls_after_two (s : state) ev1 ev2 evs :
  events_since s (record_all evs (record_event ev2 (record_event ev1 s)))
  = ev1 :: ev2 :: evs.
Proof.
  unfold events_since. rewrite trace_record_all. cbn [trace record_event].
  rewrite <- !app_assoc. apply events_since_app.
Qed.

(** X14.  [select_dropdown_option] selects in the first frame, in the
    order of [page.frames], that reports the control as found and accepts
    the selection: the reply names the values selected there, frames
    before it were probed and skipped (whether they lacked the control,
    raised, or refused the label), and no frame after it is touched. *)
Theorem select_dropdown_option_first_frame_wins (E : env) (s : state)
        (index : Z) (text : string) (c : handle) (el : dom_element)
        (before : list frame) (f : frame) (after : list frame)
        (values : list string) :
  browser_context s = Some c ->
  selector_map E !! index = Some el ->
  tag_name el = "select" ->
  frames E = (before ++ f :: after)%list ->
  Forall (fun g => frame_selects text g = None) before ->
  frame_selects text f = Some values ->
  result_of (select_dropdown_option E index text) s
  = Returned ("Selected option " +:+ text +:+ " with value "
              +:+ str_of_values E values)
  /\ calls_of (select_dropdown_option E index text) s
     = ([GetCurrentPage; GetSelectorMap]
        ++ select_probes_from (xpath el) text 0 before
        ++ select_probes (xpath el) text (length before) f)%list.
Proof.
  intros Hcx Hel Htag Hframes Hbefore Hf.
  unfold result_of, calls_of, state_after.
  rewrite (select_dropdown_option_on_select E s index text c el Hcx Hel Htag).
  rewrite Hframes,
    (select_in_frames_first E (xpath el) text before f after values Hbefore Hf).
  cbn [fst snd]. split; [reflexivity|]. apply calls_after_two.
Qed.

Lemma select_dropdown_option_first_frame_wins_witness :
  result_of (select_dropdown_option
               (framed_page [frame_B; frame_empty; frame_C; frame_A]) 2 "Red")
            live_session
  = Returned "Selected option Red with value ['c-Red']"
  /\ calls_of (select_dropdown_option
                 (framed_page [frame_B; frame_empty; frame_C; frame_A]) 2 "Red")
              live_session
     = [GetCurrentPage; GetSelectorMap;
        FrameEvaluateFind 0 "html/body/form/select[1]";
        FrameEvaluateFind 1 "html/body/form/select[1]";
        FrameEvaluateFind 2 "html/body/form/select[1]";
        FrameSelectOption 2 "//html/body/form/select[1]" "Red"].
Proof.
  apply (select_dropdown_option_first_frame_wins
           (framed_page [frame_B; frame_empty; frame_C; frame_A]) live_session
           2 "Red" 1 dropdown [frame_B; frame_empty] frame_C [frame_A] ["c-Red"]);
    try reflexivity.
  repeat constructor.
Defined.

(** X15.  [select_dropdown_option] on a select element never raises: when
    no frame both reports the control as found and accepts the selection,
    every frame has been probed and the reply is the "Could not select"
    string. *)
Theorem select_dropdown_option_no_frame (E : env) (s : state)
        (index : Z) (text : string) (c : handle) (el : dom_element) :
  browser_context s = Some c ->
  selector_map E !! index = Some el ->
  tag_name el = "select" ->
  Forall (fun g => frame_selects text g = None) (frames E) ->
  result_of (select_dropdown_option E index text) s
  = Returned ("Could not select option '" +:+ text +:+ "' in any frame")
  /\ calls_of (select_dropdown_option E index text) s
     = ([GetCurrentPage; GetSelectorMap]
        ++ select_probes_from (xpath el) text 0 (frames E))%list.
Proof.
  intros Hcx Hel Htag Hnone.
  unfold result_of, calls_of, state_after.
  rewrite (select_dropdown_option_on_select E s index text c el Hcx Hel Htag).
  rewrite (select_in_frames_none E (xpath el) text (frames E) Hnone).
  cbn [fst snd]. split; [reflexivity|]. apply calls_after_two.
Qed.

Lemma select_dropdown_option_no_frame_witness :
  result_of (select_dropdown_option (framed_page [frame_B; frame_empty]) 2 "Red")
            live_session
  = Returned "Could not select option 'Red' in any frame".
Proof.
  apply (select_dropdown_option_no_frame
           (framed_page [frame_B; frame_empty]) live_session 2 "Red" 1 dropdown);
    try reflexivity.
  repeat constructor.
Defined.

(** X16.  [select_dropdown_option] on an element whose tag is not
    "select" refuses with a descriptive reply naming the index and the
    tag, without probing any frame. *)
Theorem select_dropdown_option_refuses_other_tags (E : env) (s : state)
        (index : Z) (text : string) (c : handle) (el : dom_element) :
  browser_context s = Some c ->
  selector_map E !! index = Some el ->
  tag_name el <> "select" ->
  result_of (select_dropdown_option E index text) s
  = Returned ("Cannot select option: Element with index " +:+ str_of_int index
              +:+ " is a " +:+ tag_name el +:+ ", not a select")
  /\ calls_of (select_dropdown_option E index text) s
     = [GetCurrentPage; GetSelectorMap].
Proof.
  intros Hcx Hel Htag.
  destruct s as [br cx conns ctxs nh pg ck tr]; cbn in Hcx; subst cx.
  unfold select_dropdown_option, selector_map_item, context_call.
  unfold_monad. read_trace. rewrite Hel. read_trace.
  apply String.eqb_neq in Htag. rewrite Htag. read_trace.
  split; reflexivity.
Qed.

Lemma select_dropdown_option_refuses_other_tags_witness :
  result_of (select_dropdown_option form_page 1 "Red") live_session
  = Returned "Cannot select option: Element with index 1 is a button, not a select".
Proof.
  apply (select_dropdown_option_refuses_other_tags
           form_page live_session 1 "Red" 1 button); try reflexivity.
  discriminate.
Defined.

(** ** Navigation *)

Example go_to_url_sample :
  go_to_url calm_linux "https://example.org/a b" live_session
  = (Returned "🔗 Navigated to https://example.org/a b",
     record_all [GetCurrentPage; PageGoto "https://example.org/a b";
                 WaitForLoadState] live_session).
Proof. reflexivity. Qed.

(** X17.  [search_google] is [go_to_url] applied to the search URL: both
    make the same calls and leave the same state, and each raises exactly
    when the other does, with the same exception; only the confirmation
    text differs. *)
Theorem search_google_is_go_to_url (E : env) (s : state) (query : string) :
  let url := "https://www.google.com/search?q=" +:+ query +:+ "&udm=14" in
  state_after (search_google E query) s = state_after (go_to_url E url) s
  /\ calls_of (search_google E query) s = calls_of (go_to_url E url) s
  /\ (forall e, result_of (search_google E query) s = Raised e
                <-> result_of (go_to_url E url) s = Raised e)
  /\ (result_of (go_to_url E url) s = Returned ("🔗 Navigated to " +:+ url)
      <-> result_of (search_google E query) s
          = Returned ("🔍 Searched for " +:+ dquote +:+ query +:+ dquote
                      +:+ " in Google")).
Proof.
  cbv zeta. destruct s as [br cx conns ctxs nh pg ck tr].
  unfold search_google, go_to_url, search_url, context_call. unfold_monad.
  destruct cx as [c|]; read_trace.
  - destruct (page_goto E _) as [e|]; read_trace.
    + repeat split; try reflexivity; auto; discriminate.
    + destruct (wait_for_load_state E) as [e|]; read_trace;
        repeat split; try reflexivity; auto; discriminate.
  - repeat split; try reflexivity; auto; discriminate.
Qed.

(** X18.  [go_to_url] hands the URL to the page as given; when the
    navigation raises, the exception reaches the caller and the handler
    does not go on to wait for the load. *)
Theorem go_to_url_navigation_failure_propagates (E : env) (s : state)
        (url : string) (c : handle) (e : exn) :
  browser_context s = Some c ->
  page_goto E url = Some e ->
  result_of (go_to_url E url) s = Raised e
  /\ calls_of (go_to_url E url) s = [GetCurrentPage; PageGoto url].
Proof.
  intros Hcx Hgoto.
  destruct s as [br cx conns ctxs nh pg ck tr]; cbn in Hcx; subst cx.
  unfold go_to_url, context_call. unfold_monad. read_trace.
  rewrite Hgoto. read_trace. split; reflexivity.
Qed.

Lemma go_to_url_navigation_failure_propagates_witness :
  result_of (go_to_url offline_page "https://nowhere.invalid") live_session
  = Raised unreachable
  /\ calls_of (go_to_url offline_page "https://nowhere.invalid") live_session
     = [GetCurrentPage; PageGoto "https://nowhere.invalid"].
Proof.
  exact (go_to_url_navigation_failure_propagates
           offline_page live_session "https://nowhere.invalid" 1 unreachable
           eq_refl eq_refl).
Defined.

(** ** No session *)

(** X19.  Called while no context is held, every handler that acts on the
    page fails with the AttributeError of the first method it calls on
    [None]: [get_current_page] for the navigation and dropdown handlers,
    [get_selector_map] for [click_element] and [input_text].  No library
    call is made and the state is unchanged. *)
Theorem server_tools_fail_without_session (E : env) (s : state)
        (query url text : string) (index : Z) (sensitive : bool) :
  browser_context s = None ->
  fails_without_session (search_google E query) s "get_current_page"
  /\ fails_without_session (go_to_url E url) s "get_current_page"
  /\ fails_without_session (click_element E index) s "get_selector_map"
  /\ fails_without_session (input_text E index text sensitive) s "get_selector_map"
  /\ fails_without_session (get_dropdown_options E index) s "get_current_page"
  /\ fails_without_session (select_dropdown_option E index text) s
                           "get_current_page".
Proof.
  destruct s as [br cx conns ctxs nh pg ck tr]; cbn. intros ->.
  unfold fails_without_session, search_google, go_to_url, click_element,
    input_text, get_dropdown_options, select_dropdown_option, context_call.
  unfold_monad. cbn. repeat split.
Qed.

Lemma server_tools_fail_without_session_witness :
  fails_without_session (click_element calm_linux 1) initial_state
                        "get_selector_map".
Proof.
  destruct (server_tools_fail_without_session
              calm_linux initial_state "q" "u" "t" 1 false eq_refl)
    as (_ & _ & Hclick & _).
  exact Hclick.
Defined.

(** ** [send_keys] *)

Ltac open_page :=
  unfold reply, made, on_context, and_then, pure, throw, attempt, call,
    answer, expect in *.

Example send_keys_samples :
  send_keys plain_scene live_session "a" []
  = (Returned "⌨️ Sent keys: a", [CurrentPage; KeyPress "a"])
  /\ send_keys plain_scene live_session "abc" []
     = (Returned "⌨️ Sent keys: abc",
        [CurrentPage; KeyPress "abc"; KeyPress "a"; KeyPress "b"; KeyPress "c"])
  /\ send_keys (scene (stuck_key "b") selectors_only "") live_session "abc" []
     = (Raised (mk_exn OtherError "Target closed"),
        [CurrentPage; KeyPress "abc"; KeyPress "a"; KeyPress "b"]).
Proof. repeat split; reflexivity. Qed.


Lemma press_each_stops (P : page_env) (keys : list string) :
  forall n tr i key e,
    keys !! i = Some key ->
    press_result P (n + i) key = Some e ->
    (forall j k, j < i -> keys !! j = Some k -> press_result P (n + j) k = None) ->
    press_each P n keys tr
    = (Raised e, (tr ++ map KeyPress (take (S i) keys))%list).
Proof.
  induction keys as [|key0 rest IH]; intros n tr i key e Hkey Hfail Hbefore.
  - discriminate Hkey.
  - cbn [press_each]. open_page. destruct i as [|i].
    + injection Hkey as ->. rewrite Nat.add_0_r in Hfail. rewrite Hfail.
      cbn. rewrite take_0. reflexivity.
    + pose proof (Hbefore 0 key0 (Nat.lt_0_succ i) eq_refl) as H0.
      rewrite Nat.add_0_r in H0. rewrite H0. cbn -[take].
      rewrite (IH (S n) _ i key e).
      * rewrite <- app_assoc. reflexivity.
      * exact Hkey.
      * rewrite Nat.add_succ_comm. exact Hfail.
      * intros j k Hj Hk. rewrite Nat.add_succ_comm.
        apply Hbefore; [lia|exact Hk].
Qed.



(** X21.  During the character-by-character fallback the first press
    that raises ends the call: its exception reaches the caller, the
    characters after it are not pressed, and no reply is returned. *)
Theorem send_keys_fallback_stops_at_first_failure (P : page_env) (s : state)
        (keys : string) (c : handle) (e : exn) (i : nat) (key : string)
        (failure : exn) :
  browser_context s = Some c ->
  press_result P 0 keys = Some e ->
  str_in "Unknown key" (exn_str e) = true ->
  characters P keys !! i = Some key ->
  press_result P (S i) key = Some failure ->
  (forall j k, j < i -> characters P keys !! j = Some k ->
               press_result P (S j) k = None) ->
  reply (send_keys P s keys) = Raised failure
  /\ made (send_keys P s keys)
     = ([CurrentPage; KeyPress keys]
        ++ map KeyPress (take (S i) (characters P keys)))%list.
Proof.
  intros Hcx Hwhole Hunknown Hkey Hfail Hbefore.
  unfold send_keys. open_page. rewrite Hcx. cbn. rewrite Hwhole. cbn.
  rewrite Hunknown.
  rewrite (press_each_stops P (characters P keys) 1 _ i key failure Hkey Hfail).
  - split; reflexivity.
  - intros j k Hj Hk. apply (Hbefore j k Hj Hk).
Qed.

Lemma send_keys_fallback_stops_at_first_failure_witness :
  reply (send_keys (scene (stuck_key "b") selectors_only "") live_session "abc")
  = Raised (mk_exn OtherError "Target closed")
  /\ made (send_keys (scene (stuck_key "b") selectors_only "") live_session "abc")
     = [CurrentPage; KeyPress "abc"; KeyPress "a"; KeyPress "b"].
Proof.
  refine (send_keys_fallback_stops_at_first_failure
            (scene (stuck_key "b") selectors_only "") live_session "abc" 1
            (unknown_key "abc") 1 "b" (mk_exn OtherError "Target closed")
            eq_refl eq_refl eq_refl eq_refl eq_refl _).
  intros j k Hj Hk. destruct j as [|j]; [|lia].
  injection Hk as <-. reflexivity.
Defined.

(** X22.  An error of the first press that does not mention "Unknown key"
    is raised again as it is: nothing is pressed character by character. *)
Theorem send_keys_reraises_other_errors (P : page_env) (s : state)
        (keys : string) (c : handle) (e : exn) :
  browser_context s = Some c ->
  press_result P 0 keys = Some e ->
  str_in "Unknown key" (exn_str e) = false ->
  reply (send_keys P s keys) = Raised e
  /\ made (send_keys P s keys) = [CurrentPage; KeyPress keys].
Proof.
  intros Hcx Hwhole Hother.
  unfold send_keys. open_page. rewrite Hcx. cbn. rewrite Hwhole. cbn.
  rewrite Hother. split; reflexivity.
Qed.

Lemma send_keys_reraises_other_errors_witness :
  reply (send_keys (scene (stuck_key "b") selectors_only "") live_session "b")
  = Raised (mk_exn OtherError "Target closed").
Proof.
  exact (proj1 (send_keys_reraises_other_errors
                  (scene (stuck_key "b") selectors_only "") live_session "b" 1
                  (mk_exn OtherError "Target closed") eq_refl eq_refl eq_refl)).
Defined.

(** ** [scroll_to_text] *)

Example scroll_to_text_sample :
  scroll_to_text plain_scene live_session "Sign in" []
  = (Returned "🔍 Scrolled to text: Sign in",
     [CurrentPage; Count (GetByText "Sign in");
      Count (Locator "text=Sign in"); IsVisible (Locator "text=Sign in");
      ScrollIntoView (Locator "text=Sign in"); SleepHalfSecond]).
Proof. reflexivity. Qed.

Lemma try_locator_run (P : page_env) text (l : locator) tr :
  try_locator P text l tr
  = (Returned (if locator_usable P l
               then Some ("🔍 Scrolled to text: " +:+ text) else None),
     (tr ++ locator_probes P l)%list).
Proof.
  unfold try_locator, locator_usable, locator_probes. open_page.
  destruct (locator_count P l) as [[|n]|e]; cbn; try reflexivity.
  destruct (locator_visible P l) as [[|]|e]; cbn;
    rewrite <- ?app_assoc; try reflexivity.
  destruct (locator_scroll P l) as [e|]; cbn;
    rewrite <- ?app_assoc; reflexivity.
Qed.

Lemma try_locators_first (P : page_env) text (before : list locator) l after :
  Forall (fun l => locator_usable P l = false) before ->
  locator_usable P l = true ->
  forall tr,
    try_locators P text (before ++ l :: after) tr
    = (Returned (Some ("🔍 Scrolled to text: " +:+ text)),
       (tr ++ flat_map (locator_probes P) before
           ++ [Count l; IsVisible l; ScrollIntoView l; SleepHalfSecond])%list).
Proof.
  intros Hbefore Hl.
  induction Hbefore as [|l0 rest Hl0 Hrest IH]; intros tr.
  - cbn [app try_locators flat_map]. unfold and_then, pure.
    rewrite try_locator_run, Hl. f_equal. f_equal.
    unfold locator_usable in Hl. unfold locator_probes.
    destruct (locator_count P l) as [[|n]|e]; try discriminate Hl.
    destruct (locator_visible P l) as [[|]|e]; try discriminate Hl.
    destruct (locator_scroll P l) as [e|]; [discriminate Hl|reflexivity].
  - cbn [app try_locators flat_map]. unfold and_then.
    rewrite try_locator_run, Hl0, IH, <- !app_assoc. reflexivity.
Qed.

(** X23.  With a session open [scroll_to_text] never raises, whatever the
    three locating strategies do: it reports success exactly when one of
    them matches, shows its first match as visible and scrolls to it, and
    the "not found or not visible" string otherwise. *)
Theorem scroll_to_text_never_raises (P : page_env) (s : state) (text : string)
        (c : handle) :
  browser_context s = Some c ->
  reply (scroll_to_text P s text)
  = Returned (if existsb (locator_usable P) (locators_for text)
              then "🔍 Scrolled to text: " +:+ text
              else "Text '" +:+ text +:+ "' not found or not visible on page").
Proof.
  intros Hcx. unfold scroll_to_text, locators_for. open_page. rewrite Hcx.
  cbn [try_locators existsb]. open_page. rewrite !try_locator_run.
  destruct (locator_usable P (GetByText text)); cbn; [reflexivity|].
  rewrite try_locator_run.
  destruct (locator_usable P (Locator ("text=" +:+ text))); cbn; [reflexivity|].
  rewrite try_locator_run.
  destruct (locator_usable P (Locator _)); reflexivity.
Qed.

Lemma scroll_to_text_never_raises_witness :
  reply (scroll_to_text plain_scene live_session "Sign in")
  = Returned "🔍 Scrolled to text: Sign in".
Proof.
  exact (scroll_to_text_never_raises plain_scene live_session "Sign in" 1 eq_refl).
Defined.

(** X24.  [scroll_to_text] tries the strategies in the order text match,
    "text=" selector, XPath text-contains, and stops at the first one that
    works: the strategies before it were each asked for their count (and
    for visibility only when the count was positive), those after it are
    never consulted, and the half-second pause follows the scroll. *)
Theorem scroll_to_text_first_strategy_wins (P : page_env) (s : state)
        (text : string) (c : handle)
        (before : list locator) (l : locator) (after : list locator) :
  browser_context s = Some c ->
  locators_for text = (before ++ l :: after)%list ->
  Forall (fun l0 => locator_usable P l0 = false) before ->
  locator_usable P l = true ->
  made (scroll_to_text P s text)
  = ([CurrentPage] ++ flat_map (locator_probes P) before
     ++ [Count l; IsVisible l; ScrollIntoView l; SleepHalfSecond])%list.
Proof.
  intros Hcx Hsplit Hbefore Hl.
  unfold scroll_to_text. rewrite Hsplit. open_page. rewrite Hcx.
  rewrite (try_locators_first P text before l after Hbefore Hl). reflexivity.
Qed.

Lemma scroll_to_text_first_strategy_wins_witness :
  made (scroll_to_text plain_scene live_session "Sign in")
  = [CurrentPage; Count (GetByText "Sign in");
     Count (Locator "text=Sign in"); IsVisible (Locator "text=Sign in");
     ScrollIntoView (Locator "text=Sign in"); SleepHalfSecond].
Proof.
  apply (scroll_to_text_first_strategy_wins
           plain_scene live_session "Sign in" 1
           [GetByText "Sign in"] (Locator "text=Sign in")
           [Locator "//*[contains(text(), 'Sign in')]"]);
    try reflexivity.
  repeat constructor.
Defined.

(** ** [scroll_down] and [scroll_up] *)

Example scroll_samples :
  made (scroll_down plain_scene live_session (Some 300%Z))
  = [CurrentPage; Evaluate "window.scrollBy(0, 300);"]
  /\ made (scroll_up plain_scene live_session (Some 300%Z))
     = [CurrentPage; Evaluate "window.scrollBy(0, -300);"]
  /\ reply (scroll_up plain_scene live_session None)
     = Returned "🔍 Scrolled up the page by one page"
  /\ made (scroll_down plain_scene live_session (Some 0%Z))
     = [CurrentPage; Evaluate "window.scrollBy(0, 0);"].
Proof. repeat split; reflexivity. Qed.

(** X25.  [scroll_up] negates the amount by writing a minus sign in front
    of its decimal form.  For a positive amount the script is the one
    [scroll_down] evaluates for the opposite amount; for a negative amount
    it is not: the script then carries two minus signs in a row. *)
Theorem scroll_up_writes_a_minus_sign (P : page_env) (s : state) (amount : Z)
        (c : handle) :
  browser_context s = Some c ->
  ((0 < amount)%Z ->
   made (scroll_up P s (Some amount)) = made (scroll_down P s (Some (- amount)%Z)))
  /\ ((amount < 0)%Z ->
      made (scroll_up P s (Some amount))
      = [CurrentPage;
         Evaluate ("window.scrollBy(0, --" +:+ str_of_int (- amount)%Z +:+ ");")]).
Proof.
  intros Hcx. unfold scroll_up, scroll_down. open_page. rewrite Hcx.
  destruct amount as [|p|p]; split; intros Hsign; try lia.
  - change (scroll_down_script (Some (- Z.pos p)%Z))
      with (scroll_up_script (Some (Z.pos p))).
    destruct (evaluate_result P _); reflexivity.
  - change (scroll_up_script (Some (Z.neg p)))
      with ("window.scrollBy(0, --" +:+ str_of_int (Z.pos p) +:+ ");").
    destruct (evaluate_result P _); reflexivity.
Qed.

Lemma scroll_up_writes_a_minus_sign_witness :
  made (scroll_up plain_scene live_session (Some (-5)%Z))
  = [CurrentPage; Evaluate "window.scrollBy(0, --5);"].
Proof.
  exact (proj2 (scroll_up_writes_a_minus_sign plain_scene live_session (-5)%Z 1
                  eq_refl) eq_refl).
Defined.

(** ** [validate_page] *)





Example validate_page_samples :
  reply (validate_page plain_scene live_session "ALICE")
  = Returned "✅ Validation successful: Expected text 'ALICE' found on page."
  /\ reply (validate_page plain_scene live_session "Bob")
     = Returned "⚠ Validation warning: Expected text 'Bob' not found. Extracted snippet: Welcome back, Alice..."
  /\ reply (validate_page plain_scene live_session "")
     = Returned ("Page content extracted:" +:+ nl +:+ "Welcome back, Alice...").
Proof. repeat split; reflexivity. Qed.





(** ** The remaining handlers without a session *)

(** X28.  Called while no context is held, [go_back], [switch_tab],
    [open_tab], [inspect_page], [scroll_down], [scroll_up], [send_keys],
    [scroll_to_text] and [validate_page] each fail with the AttributeError
    of the first method they call on [None], before any library call;
    [wait] and [done] do not touch the context and answer all the same. *)
Theorem page_tools_fail_without_session (P : page_env) (s : state)
        (page_id seconds : Z) (amount : option Z) (url keys text : string)
        (flag : bool) :
  browser_context s = None ->
  page_fails_without_session (go_back P s) "go_back"
  /\ page_fails_without_session (switch_tab P s page_id) "switch_to_tab"
  /\ page_fails_without_session (open_tab P s url) "create_new_tab"
  /\ page_fails_without_session (inspect_page P s) "get_state"
  /\ page_fails_without_session (scroll_down P s amount) "get_current_page"
  /\ page_fails_without_session (scroll_up P s amount) "get_current_page"
  /\ page_fails_without_session (send_keys P s keys) "get_current_page"
  /\ page_fails_without_session (scroll_to_text P s text) "get_current_page"
  /\ page_fails_without_session (validate_page P s text) "get_current_page"
  /\ wait seconds []
     = (Returned ("🕒 Waiting for " +:+ str_of_int seconds +:+ " seconds"),
        [SleepSeconds seconds])
  /\ done flag text []
     = (Returned {| is_done := true; success := flag; extracted_content := text |},
        []).
Proof.
  intros Hcx.
  unfold page_fails_without_session, go_back, switch_tab, open_tab,
    inspect_page, scroll_down, scroll_up, send_keys, scroll_to_text,
    validate_page, wait, done.
  open_page. rewrite Hcx. repeat split.
Qed.

Lemma page_tools_fail_without_session_witness :
  page_fails_without_session (send_keys plain_scene initial_state "Enter")
                             "get_current_page".
Proof.
  destruct (page_tools_fail_without_session
              plain_scene initial_state 0%Z 3%Z None "u" "Enter" "t" true eq_refl)
    as (_ & _ & _ & _ & _ & _ & Hkeys & _).
  exact Hkeys.
Defined.

(** ** The briefing returned by [initialize_browser] *)

Lemma open_session_reply (E : env) headless task (s : state) msg :
  fst (open_session E headless task s) = Returned msg ->
  exists kind, msg = browser_system_prompt E kind task.
Proof.
  unfold open_session.
  destruct (detect_default_browser_returns (the_host E)) as [[kind path] Hdet].
  unfold_monad. rewrite Hdet.
  destruct s as [br cx conns ctxs nh pg ck tr]; cbn.
  destruct path as [[|a p]|]; cbn;
    try (intros [= <-]; eexists; reflexivity);
    (destruct (platform_default_path E kind) as [chrome_path|e]; cbn;
     [intros [= <-]; eexists; reflexivity|discriminate]).
Qed.

(** X29.  Whenever [initialize_browser] returns, the briefing it returns
    contains the text the library produced for the action catalog and the
    caller's task as given, inside the sentence "Your ultimate task is:
    ... .". *)
Theorem initialize_browser_briefing_embeds_task (E : env) headless task
        (s : state) (msg : string) :
  result_of (initialize_browser E headless task) s = Returned msg ->
  str_in (system_prompt E action_description) msg = true
  /\ str_in ("Your ultimate task is: " +:+ task +:+ ".") msg = true
  /\ str_in task msg = true.
Proof.
  unfold result_of. rewrite initialize_browser_unfold. intros Hret.
  assert (Hmsg : exists kind, msg = browser_system_prompt E kind task).
  { destruct (browser s).
    - destruct (close_browser E s) as [[m|e] s1]; [|discriminate Hret].
      exact (open_session_reply E headless task s1 msg Hret).
    - exact (open_session_reply E headless task s msg Hret). }
  destruct Hmsg as [kind ->]. unfold browser_system_prompt.
  split; [|split].
  - do 2 apply str_in_skip. apply str_in_here.
  - do 5 apply str_in_skip.
    rewrite <- (append_assoc task "."),
      <- (append_assoc "Your ultimate task is: " (task +:+ ".")).
    apply str_in_here.
  - do 6 apply str_in_skip. apply str_in_here.
Qed.

Lemma initialize_browser_briefing_embeds_task_witness :
  exists msg,
    result_of (initialize_browser calm_linux false "book a table") initial_state
    = Returned msg
    /\ str_in "book a table" msg = true.
Proof.
  eexists. split; [reflexivity|].
  exact (proj2 (proj2 (initialize_browser_briefing_embeds_task
                         calm_linux false "book a table" initial_state _
                         eq_refl))).
Defined.

End MoreProps.
